(** * MiniRun container runtime: a shallow embedding of [container_runtime.c]

    The runtime is a short straight-line C program whose whole behaviour is
    the sequence of library and system calls it issues and the values it
    returns.  It is embedded here as a program tree: every call of the
    source is a node whose continuation receives the value the call
    returned, so that a property proved for every operating-system answer
    holds for every real execution.  A concrete model of the host (the
    control-group file system, the confinement root) is given in addition,
    for the statements that speak about the state of the host. *)

From stdpp Require Import gmap strings list.
From Stdlib Require Import ZArith Ascii Lia.

Local Open Scope string_scope.
Local Open Scope Z_scope.

(** ** C data *)

Module C.

(** [int] is 32 bits wide on the platforms the runtime targets; signed
    arithmetic is taken with two's complement wrap-around. *)
Definition int_min : Z := - 2 ^ 31.
Definition int_max : Z := 2 ^ 31 - 1.
Definition wrap_int (z : Z) : Z := (z + 2 ^ 31) mod 2 ^ 32 - 2 ^ 31.
Definition int_mul (a b : Z) : Z := wrap_int (a * b).

(** [%d] and [%ld]: decimal digits, with a minus sign before a negative
    number.  A [long] has at most 19 digits. *)
Definition digit (n : Z) : ascii := ascii_of_nat (48 + Z.to_nat n).

Fixpoint digits (fuel : nat) (n : Z) (acc : string) : string :=
  match fuel with
  | O => acc
  | S fuel' =>
      let acc' := String (digit (n mod 10)) acc in
      if n <? 10 then acc' else digits fuel' (n / 10) acc'
  end.

Definition fmt_d (z : Z) : string :=
  if z <? 0 then String "-" (digits 20 (- z) "") else digits 20 z "".

(** [snprintf(buf, size, ...)] keeps at most [size - 1] bytes of the
    formatted text. *)
Definition snprintf (size : nat) (text : string) : string :=
  String.substring 0 (size - 1) text.

(** Constants of the C library and of Linux used by the source. *)
Definition F_OK : Z := 0.
Definition EEXIST : Z := 17.
Definition ENOENT : Z := 2.
Definition EACCES : Z := 13.
Definition EBUSY : Z := 16.
Definition ENOTDIR : Z := 20.
Definition EINVAL : Z := 22.
Definition ENOTEMPTY : Z := 39.
Definition CLONE_NEWPID : Z := 0x20000000.
Definition CLONE_NEWNS : Z := 0x00020000.
Definition SIGCHLD : Z := 17.
Definition mode_0755 : Z := 493.   (* octal 0755 *)

End C.

(** The container configuration, [ContainerConfig] of the source. *)
Record ContainerConfig := {
  name : string;
  rootfs_path : string;
  command : string;
  memory_limit : Z;   (* long, in bytes *)
  cpu_limit : Z       (* int, percentage *)
}.

(** ** Calls and programs *)

(** Arguments of a [printf]-style call.  [ArgErrno] stands for
    [strerror(errno)]. *)
Inductive PfArg :=
| ArgS (s : string)
| ArgD (z : Z)
| ArgErrno.

(** A [FILE*] that is not [NULL]. *)
Definition FILE := nat.

(** The calls of the source that return to their caller, indexed by the type
    of what comes back.  Calls that set [errno] and whose [errno] the source
    reads return the pair of the result and of [errno] after the call. *)
Inductive Sys : Type -> Type :=
| Printf (fmt : string) (args : list PfArg) : Sys unit
| Eprintf (fmt : string) (args : list PfArg) : Sys unit
| Perror (msg : string) : Sys unit
| Access (path : string) (mode : Z) : Sys Z
| Mkdir (path : string) (mode : Z) : Sys (Z * Z)
| Rmdir (path : string) : Sys (Z * Z)
| Fopen (path : string) (mode : string) : Sys (option FILE)
| Fprintf (f : FILE) (fmt : string) (args : list PfArg) : Sys Z
| Fclose (f : FILE) : Sys Z
| Malloc (size : Z) : Sys (option Z)
| Free (ptr : Z) : Sys unit
| Waitpid (pid : Z) (options : Z) : Sys (Z * Z)
| Getpid : Sys Z
| Chroot (path : string) : Sys Z
| Chdir (path : string) : Sys Z
| Mount (source target fstype : string) (flags : Z) : Sys Z.

(** The functions the source passes to [clone]. *)
Inductive FnPtr := Fn_child_function.

(** Programs.  [Clone] and [Execl] are nodes of their own: the first starts
    a second process, the second does not return when it succeeds. *)
Inductive Prog (A : Type) : Type :=
| Ret (a : A)
| Vis {X : Type} (c : Sys X) (k : X -> Prog A)
| Clone (fn : FnPtr) (stack_top : Z) (flags : Z) (arg : ContainerConfig)
        (k : Z -> Prog A)
| Execl (path : string) (argv : list string) (k : Z -> Prog A).

Arguments Ret {A} a.
Arguments Vis {A X} c k.
Arguments Clone {A} fn stack_top flags arg k.
Arguments Execl {A} path argv k.

Fixpoint bind {A B} (p : Prog A) (f : A -> Prog B) : Prog B :=
  match p with
  | Ret a => f a
  | Vis c k => Vis c (fun x => bind (k x) f)
  | Clone fn st fl arg k => Clone fn st fl arg (fun x => bind (k x) f)
  | Execl path argv k => Execl path argv (fun x => bind (k x) f)
  end.

#[export] Instance prog_ret : MRet Prog := @Ret.
#[export] Instance prog_bind : MBind Prog := fun A B f p => bind p f.

Definition call {X} (c : Sys X) : Prog X := Vis c Ret.
Definition clone (fn : FnPtr) (stack_top flags : Z) (arg : ContainerConfig)
  : Prog Z := Clone fn stack_top flags arg Ret.
Definition execl (path : string) (argv : list string) : Prog Z :=
  Execl path argv Ret.

(** ** The source, function by function *)

Module Runtime.

Import C.

(** [argv[i]]. *)
Definition arg (argv : list string) (i : nat) : string := nth i argv "".

(** [write_cgroup_file]: 0 on success, -1 on failure. *)
Definition write_cgroup_file (path value : string) : Prog Z :=
  f ← call (Fopen path "w");
  match f with
  | None => mret (-1)
  | Some f =>
      ret ← call (Fprintf f "%s" [ArgS value]);
      call (Fclose f);;
      if ret <? 0 then mret (-1) else mret 0
  end.

(** The directory of the group as [setup_cgroups] builds it, in a buffer
    of 256 bytes. *)
Definition setup_cgroup_path (container_name : string) : string :=
  snprintf 256 ("/sys/fs/cgroup/minirun-" +:+ container_name).

Definition memory_max_path (container_name : string) : string :=
  snprintf 300 (setup_cgroup_path container_name +:+ "/memory.max").

Definition cpu_max_path (container_name : string) : string :=
  snprintf 300 (setup_cgroup_path container_name +:+ "/cpu.max").

(** The text written to [cpu.max]: ["%ld %ld"] of [cpu_max] and
    [cpu_period]. *)
Definition cpu_max_value (cpu_percent : Z) : string :=
  let cpu_max := int_mul cpu_percent 1000 in
  let cpu_period := 100000 in
  snprintf 128 (fmt_d cpu_max +:+ " " +:+ fmt_d cpu_period).

(** [setup_cgroups]: 1 if the limits are in place, 0 otherwise. *)
Definition setup_cgroups (container_name : string)
    (memory_limit_bytes : Z) (cpu_percent : Z) : Prog Z :=
  let cgroup_path := setup_cgroup_path container_name in
  a ← call (Access "/sys/fs/cgroup/cgroup.controllers" F_OK);
  if negb (a =? 0) then
    call (Eprintf "⚠️  Cgroups v2 not available on this system\n" []);;
    call (Eprintf "   Container will run without resource limits\n" []);;
    mret 0
  else
    '(m, errno) ← call (Mkdir cgroup_path mode_0755);
    if negb (m =? 0) && negb (errno =? EEXIST) then
      call (Eprintf "⚠️  Failed to create cgroup directory: %s\n"
              [ArgErrno]);;
      call (Eprintf "   Try running with sudo or check permissions\n" []);;
      mret 0
    else
      write_cgroup_file "/sys/fs/cgroup/cgroup.subtree_control"
        "+cpu +memory";;
      let value := snprintf 128 (fmt_d memory_limit_bytes) in
      r1 ← write_cgroup_file (memory_max_path container_name) value;
      success1 ←
        (if negb (r1 =? 0) then
           call (Eprintf "⚠️  Failed to set memory limit: %s\n"
                   [ArgErrno]);;
           call (Eprintf "   Check if memory controller is enabled\n" []);;
           mret 0
         else mret 1);
      r2 ← write_cgroup_file (cpu_max_path container_name)
             (cpu_max_value cpu_percent);
      success ←
        (if negb (r2 =? 0) then
           call (Eprintf "⚠️  Failed to set CPU limit: %s\n" [ArgErrno]);;
           call (Eprintf "   Check if CPU controller is enabled\n" []);;
           mret 0
         else mret success1);
      (if negb (success =? 0) then
         call (Printf "✓ Resource limits configured:\n" []);;
         call (Printf "  - Memory: %ldMB\n"
                 [ArgD (Z.quot memory_limit_bytes (1024 * 1024))]);;
         call (Printf "  - CPU: %d%% of one core\n" [ArgD cpu_percent]);;
         call (Printf "  - Cgroup: %s\n\n" [ArgS cgroup_path])
       else mret tt);;
      mret success.

(** The directory [cleanup_cgroups] removes, built in a buffer of 512
    bytes. *)
Definition cleanup_cgroup_path (container_name : string) : string :=
  snprintf 512 ("/sys/fs/cgroup/minirun-" +:+ container_name).

(** [cleanup_cgroups]: the result of [rmdir] is read and dropped. *)
Definition cleanup_cgroups (container_name : string) : Prog unit :=
  '(r, errno) ← call (Rmdir (cleanup_cgroup_path container_name));
  if negb (r =? 0) && negb (errno =? ENOENT) then mret tt else mret tt.

(** The membership file the child writes its pid to, built in a buffer of
    300 bytes. *)
Definition cgroup_procs_path (container_name : string) : string :=
  snprintf 300
    ("/sys/fs/cgroup/minirun-" +:+ container_name +:+ "/cgroup.procs").

(** [child_function], the entry point of the cloned process. *)
Definition child_function (config : ContainerConfig) : Prog Z :=
  call (Printf "Container [%s] starting...\n" [ArgS (name config)]);;
  pid ← call Getpid;
  call (Printf "PID: %d\n" [ArgD pid]);;
  pid' ← call Getpid;
  let pid_str := snprintf 32 (fmt_d pid') in
  cgroup_file ← call (Fopen (cgroup_procs_path (name config)) "w");
  match cgroup_file with
  | Some f =>
      n ← call (Fprintf f "%s" [ArgS pid_str]);
      (if 0 <? n then
         call (Printf "✓ Resource limits applied to this container\n" [])
       else
         call (Eprintf "⚠️  Warning: Could not write PID to cgroup\n" []));;
      call (Fclose f);;
      mret tt
  | None =>
      call (Eprintf "⚠️  Warning: Running without resource limits\n" [])
  end;;
  c ← call (Chroot (rootfs_path config));
  if negb (c =? 0) then
    call (Perror "chroot failed");;
    mret 1
  else
    call (Chdir "/");;
    m ← call (Mount "proc" "/proc" "proc" 0);
    (if negb (m =? 0) then
       call (Perror "Warning: mount /proc failed (ps command may not work)")
     else mret tt);;
    call (Printf "Container ready! You can now run commands inside.\n\n" []);;
    execl "/bin/bash" ["bash"; "-c"; command config];;
    call (Perror "exec failed");;
    mret 1.

(** The configuration [main] builds from its arguments, with the default
    limits: 512 MB of memory, 50% of a processor. *)
Definition main_config (argv : list string) : ContainerConfig :=
  {| name := arg argv 1;
     rootfs_path := arg argv 2;
     command := arg argv 3;
     memory_limit := 512 * 1024 * 1024;
     cpu_limit := 50 |}.

(** [main]. *)
Definition main (argc : Z) (argv : list string) : Prog Z :=
  if argc <? 4 then
    call (Eprintf "Usage: %s <name> <rootfs_path> <command>\n"
            [ArgS (arg argv 0)]);;
    call (Eprintf "Example: %s myapp /path/to/myroot /bin/bash\n"
            [ArgS (arg argv 0)]);;
    mret 1
  else
    let config := main_config argv in
    call (Printf "=== MiniRun Container Runtime ===\n" []);;
    call (Printf "Starting container: %s\n" [ArgS (name config)]);;
    call (Printf "Root filesystem: %s\n" [ArgS (rootfs_path config)]);;
    call (Printf "Command: %s\n\n" [ArgS (command config)]);;
    call (Printf "Limits: %ldMB RAM, %d%% CPU\n\n"
            [ArgD (Z.quot (memory_limit config) (1024 * 1024));
             ArgD (cpu_limit config)]);;
    cgroups_enabled ← setup_cgroups (name config) (memory_limit config)
                        (cpu_limit config);
    (if cgroups_enabled =? 0 then
       call (Printf "⚠️  WARNING: Running without resource limits\n\n" [])
     else mret tt);;
    stack ← call (Malloc (1024 * 1024));
    match stack with
    | None =>
        call (Perror "malloc failed");;
        cleanup_cgroups (name config);;
        mret 1
    | Some stack =>
        child_pid ← clone Fn_child_function (stack + 1024 * 1024)
                      (Z.lor (Z.lor CLONE_NEWPID CLONE_NEWNS) SIGCHLD)
                      config;
        if child_pid =? -1 then
          call (Perror "clone failed");;
          call (Free stack);;
          cleanup_cgroups (name config);;
          mret 1
        else
          call (Printf "Container PID: %d\n" [ArgD child_pid]);;
          call (Waitpid child_pid 0);;
          call (Printf "\n=== Container [%s] stopped ===\n"
                  [ArgS (name config)]);;
          call (Free stack);;
          cleanup_cgroups (name config);;
          mret 0
    end.

End Runtime.

(** ** Processes and the operating system *)

(** The two processes of one invocation: the supervisor that runs [main] and
    the container process [clone] starts. *)
Inductive Proc := Supervisor | Container.

(** An operating system over a state [W] answers every call.  [os_clone]
    answers with the pid of the new process or with [None] (no process was
    created and [clone] returns -1); [os_execl] answers [None] when the
    image of the caller was replaced and [Some r] when [execl] returned [r];
    [os_exit] is the kernel's bookkeeping when the container process ends. *)
Record OS (W : Type) := {
  os_call : forall X, Proc -> Sys X -> W -> X * W;
  os_clone : Z -> W -> option positive * W;
  os_execl : Proc -> string -> list string -> W -> option Z * W;
  os_exit : option Z -> W -> W
}.

Arguments os_call {W} o {X} who c w.
Arguments os_clone {W} o flags w.
Arguments os_execl {W} o who path argv w.
Arguments os_exit {W} o code w.

(** What a process did, call by call, with the answers it got. *)
Inductive Event :=
| EvCall {X : Type} (c : Sys X) (x : X)
| EvClone (fn : FnPtr) (flags : Z) (arg : ContainerConfig) (ret : Z)
| EvExecl (path : string) (argv : list string) (ret : option Z).

(** How the code of a process ends: its function returns, or the process
    goes on as another program. *)
Inductive Outcome (A : Type) :=
| Returned (a : A)
| Replaced (path : string) (argv : list string).

Arguments Returned {A} a.
Arguments Replaced {A} path argv.

(** The exit code that the code of the process itself chose, if any. *)
Definition exit_code (o : Outcome Z) : option Z :=
  match o with
  | Returned n => Some n
  | Replaced _ _ => None
  end.

Record Run (W A : Type) := {
  trace : list Event;
  outcome : Outcome A;
  spawned : list (positive * (list Event * Outcome Z));
  world : W
}.

Arguments trace {W A} r.
Arguments outcome {W A} r.
Arguments spawned {W A} r.
Arguments world {W A} r.

Definition after {W A} (e : Event)
    (kids : list (positive * (list Event * Outcome Z))) (r : Run W A)
  : Run W A :=
  {| trace := e :: trace r;
     outcome := outcome r;
     spawned := kids ++ spawned r;
     world := world r |}.

(** [p] followed by [q]: the traces and the processes started add up. *)
Definition seq_run {W A B} (p : Run W A) (q : Run W B) : Run W B :=
  {| trace := trace p ++ trace q;
     outcome := outcome q;
     spawned := spawned p ++ spawned q;
     world := world q |}.

(** A process whose image was replaced runs nothing of what follows. *)
Definition stop {W A B} (r : Run W A) (path : string) (argv : list string)
  : Run W B :=
  {| trace := trace r; outcome := Replaced path argv;
     spawned := spawned r; world := world r |}.

Section Semantics.

Context {W : Type} (os : OS W).

(** The run of the started process, as seen from the process starting
    it. *)
Variable start : FnPtr -> ContainerConfig -> W -> (list Event * Outcome Z) * W.

Fixpoint run {A} (who : Proc) (p : Prog A) (w : W) : Run W A :=
  match p with
  | Ret a =>
      {| trace := []; outcome := Returned a; spawned := []; world := w |}
  | Vis c k =>
      let '(x, w1) := os_call os who c w in
      after (EvCall c x) [] (run who (k x) w1)
  | Clone fn stack_top flags arg k =>
      match os_clone os flags w with
      | (None, w1) =>
          after (EvClone fn flags arg (-1)) [] (run who (k (-1)) w1)
      | (Some pid, w1) =>
          let '(child, w2) := start fn arg w1 in
          after (EvClone fn flags arg (Z.pos pid)) [(pid, child)]
            (run who (k (Z.pos pid)) w2)
      end
  | Execl path argv k =>
      match os_execl os who path argv w with
      | (None, w1) =>
          {| trace := [EvExecl path argv None];
             outcome := Replaced path argv;
             spawned := [];
             world := w1 |}
      | (Some r, w1) =>
          after (EvExecl path argv (Some r)) [] (run who (k r) w1)
      end
  end.

End Semantics.

(** A process that starts no other. *)
Definition no_start {W} (fn : FnPtr) (arg : ContainerConfig) (w : W)
  : (list Event * Outcome Z) * W :=
  (([], Returned 0), w).

(** The container process runs the entry point to its end; the supervisor
    meets it again at [waitpid]. *)
Definition run_child {W} (os : OS W) (config : ContainerConfig) (w : W)
  : Run W Z :=
  run os no_start Container (Runtime.child_function config) w.

Definition start_child {W} (os : OS W) (fn : FnPtr) (arg : ContainerConfig)
    (w : W) : (list Event * Outcome Z) * W :=
  match fn with
  | Fn_child_function =>
      let r := run_child os arg w in
      ((trace r, outcome r), os_exit os (exit_code (outcome r)) (world r))
  end.

(** One invocation of the runtime. *)
Definition run_main {W} (os : OS W) (argc : Z) (argv : list string) (w : W)
  : Run W Z :=
  run os (start_child os) Supervisor (Runtime.main argc argv) w.

(** A function of the supervisor run on its own. *)
Definition run_fn {W A} (os : OS W) (p : Prog A) (w : W) : Run W A :=
  run os (start_child os) Supervisor p w.

(** ** Observations on traces *)


Definition rmdir_of (e : Event) : option string :=
  match e with
  | EvCall (Rmdir path) _ => Some path
  | _ => None
  end.

Definition rmdirs (tr : list Event) : list string := omap rmdir_of tr.

(** The text written through [fprintf], stream by stream: every pair is the
    path a stream was opened on and a string sent to it.  [open] maps the
    streams that are open to their paths. *)
Fixpoint file_writes (open : list (FILE * string)) (tr : list Event)
  : list (string * string) :=
  match tr with
  | [] => []
  | EvCall (Fopen path _) (Some f) :: tr' => file_writes ((f, path) :: open) tr'
  | EvCall (Fprintf f _ args) _ :: tr' =>
      match List.find (fun fp => Nat.eqb (fst fp) f) open, args with
      | Some (_, path), [ArgS v] => (path, v) :: file_writes open tr'
      | _, _ => file_writes open tr'
      end
  | EvCall (Fclose f) _ :: tr' =>
      file_writes (List.filter (fun fp => negb (Nat.eqb (fst fp) f)) open) tr'
  | _ :: tr' => file_writes open tr'
  end.

Definition writes_to (path : string) (tr : list Event) : list string :=
  List.map snd
    (List.filter (fun pv => String.eqb (fst pv) path) (file_writes [] tr)).

(** Was a stream opened on [path]? *)
Definition opened (path : string) (tr : list Event) : bool :=
  existsb (fun e => match e with
                    | EvCall (Fopen p _) (Some _) => String.eqb p path
                    | _ => false
                    end) tr.

Definition mkdirs (tr : list Event) : list string :=
  omap (fun e => match e with
                 | EvCall (Mkdir path _) _ => Some path
                 | _ => None
                 end) tr.

(** The answers to [mkdir], to [malloc] and to [clone]. *)
Definition mkdir_answers (tr : list Event) : list (Z * Z) :=
  omap (fun e => match e with
                 | EvCall (Mkdir _ _) x => Some x
                 | _ => None
                 end) tr.

Definition mallocs (tr : list Event) : list (option Z) :=
  omap (fun e => match e with
                 | EvCall (Malloc _) x => Some x
                 | _ => None
                 end) tr.

Definition clones (tr : list Event) : list Z :=
  omap (fun e => match e with
                 | EvClone _ _ _ ret => Some ret
                 | _ => None
                 end) tr.

Definition waits (tr : list Event) : list Z :=
  omap (fun e => match e with
                 | EvCall (Waitpid pid _) _ => Some pid
                 | _ => None
                 end) tr.

(** The test for the controller file of the hierarchy was answered "not
    there". *)
Definition hierarchy_missing (tr : list Event) : bool :=
  existsb (fun e => match e with
                    | EvCall (Access path _) a =>
                        String.eqb path "/sys/fs/cgroup/cgroup.controllers"
                        && negb (a =? 0)
                    | _ => false
                    end) tr.

(** A stream on [path] was asked for, whatever the answer. *)
Definition attempted (path : string) (tr : list Event) : bool :=
  existsb (fun e => match e with
                    | EvCall (Fopen p _) _ => String.eqb p path
                    | _ => false
                    end) tr.

(** [write_cgroup_file] on [path] failed: the stream could not be opened, or
    the [fprintf] that follows the opening returned a negative number. *)
Fixpoint write_failed (path : string) (tr : list Event) : bool :=
  match tr with
  | [] => false
  | EvCall (Fopen p _) None :: tr' =>
      String.eqb p path || write_failed path tr'
  | EvCall (Fopen p _) (Some f) :: tr' =>
      match tr' with
      | EvCall (Fprintf g _ _) n :: _ =>
          String.eqb p path && Nat.eqb f g && (n <? 0)
          || write_failed path tr'
      | _ => write_failed path tr'
      end
  | _ :: tr' => write_failed path tr'
  end.

(** The steps of the container process. *)
Inductive Step :=
| Join (path : string)                    (* the membership file is opened *)
| Sent (args : list PfArg) (ret : Z)      (* fprintf: the pid, to the file *)
| Closed (ret : Z)                        (* fclose: the pid reaches the file *)
| Confine (path : string) (ret : Z)       (* chroot *)
| Workdir (path : string) (ret : Z)       (* chdir *)
| MountProc (target : string) (ret : Z)   (* mount *)
| Exec (path : string) (argv : list string) (ret : option Z).

Definition step_of (e : Event) : option Step :=
  match e with
  | EvCall (Fopen path _) _ => Some (Join path)
  | EvCall (Fprintf _ _ args) r => Some (Sent args r)
  | EvCall (Fclose _) r => Some (Closed r)
  | EvCall (Chroot path) r => Some (Confine path r)
  | EvCall (Chdir path) r => Some (Workdir path r)
  | EvCall (Mount _ target _ _) r => Some (MountProc target r)
  | EvExecl path argv r => Some (Exec path argv r)
  | _ => None
  end.

Definition steps (tr : list Event) : list Step := omap step_of tr.

(** ** Programs by the calls they make *)

(** [uses ok ctl p]: every call in [p] is one that [ok] allows; [clone] and
    [execl] occur only if [ctl] holds. *)
Inductive uses (ok : forall X, Sys X -> bool) (ctl : bool) {A : Type}
  : Prog A -> Prop :=
| uses_ret a : uses ok ctl (Ret a)
| uses_vis {X} (c : Sys X) k :
    ok X c = true -> (forall x, uses ok ctl (k x)) -> uses ok ctl (Vis c k)
| uses_clone fn st fl arg k :
    ctl = true -> (forall x, uses ok ctl (k x)) ->
    uses ok ctl (Clone fn st fl arg k)
| uses_execl path argv k :
    ctl = true -> (forall x, uses ok ctl (k x)) ->
    uses ok ctl (Execl path argv k).

Definition event_ok (ok : forall X, Sys X -> bool) (ctl : bool) (e : Event)
  : bool :=
  match e with
  | EvCall c _ => ok _ c
  | _ => ctl
  end.

Definition not_rmdir (X : Type) (c : Sys X) : bool :=
  match c with
  | Rmdir _ => false
  | _ => true
  end.

(** The calls of [setup_cgroups]. *)
Definition setup_calls (X : Type) (c : Sys X) : bool :=
  match c with
  | Printf _ _ | Eprintf _ _ | Access _ _ | Mkdir _ _
  | Fopen _ _ | Fprintf _ _ _ | Fclose _ => true
  | _ => false
  end.

(** [cleanup_last p]: whatever [rmdir] answers, what follows it in [p] is to
    return one and the same value. *)
Inductive cleanup_last {A : Type} : Prog A -> Prop :=
| cleanup_last_ret a : cleanup_last (Ret a)
| cleanup_last_vis {X} (c : Sys X) k :
    not_rmdir X c = true -> (forall x, cleanup_last (k x)) ->
    cleanup_last (Vis c k)
| cleanup_last_rmdir path k a :
    (forall x, k x = Ret a) -> cleanup_last (Vis (Rmdir path) k)
| cleanup_last_clone fn st fl arg k :
    (forall x, cleanup_last (k x)) -> cleanup_last (Clone fn st fl arg k)
| cleanup_last_execl path argv k :
    (forall x, cleanup_last (k x)) -> cleanup_last (Execl path argv k).

(** Terminal output, [getpid] and the calls on streams. *)
Definition stream_calls (X : Type) (c : Sys X) : bool :=
  match c with
  | Printf _ _ | Eprintf _ _ | Perror _ | Getpid
  | Fopen _ _ | Fprintf _ _ _ | Fclose _ => true
  | _ => false
  end.

(** An operating system whose [rmdir] answers as [f] says. *)
Definition with_rmdir {W} (f : Proc -> string -> W -> (Z * Z) * W)
    (os : OS W) : OS W :=
  {| os_call := fun X who c =>
       match c in Sys X return W -> X * W with
       | Rmdir path => f who path
       | c' => os_call os who c'
       end;
     os_clone := os_clone os;
     os_execl := os_execl os;
     os_exit := os_exit os |}.

(** An operating system that does to the state what [os] does and answers
    [fclose] as [g] says. *)
Definition with_fclose {W} (g : Proc -> FILE -> W -> Z) (os : OS W) : OS W :=
  {| os_call := fun X who c =>
       match c in Sys X return W -> X * W with
       | Fclose f => fun w => (g who f w, snd (os_call os who (Fclose f) w))
       | c' => os_call os who c'
       end;
     os_clone := os_clone os;
     os_execl := os_execl os;
     os_exit := os_exit os |}.

Definition not_fclose (X : Type) (c : Sys X) : bool :=
  match c with
  | Fclose _ => false
  | _ => true
  end.

(** [fclose_unread p]: what [fclose] answers is not read in [p], which goes
    on in one way whatever the answer; [p] starts no process and does not
    replace its image. *)
Inductive fclose_unread {A : Type} : Prog A -> Prop :=
| fclose_unread_ret a : fclose_unread (Ret a)
| fclose_unread_vis {X} (c : Sys X) k :
    not_fclose X c = true -> (forall x, fclose_unread (k x)) ->
    fclose_unread (Vis c k)
| fclose_unread_fclose f k p :
    (forall x, k x = p) -> fclose_unread p -> fclose_unread (Vis (Fclose f) k).

(** An operating system whose [chdir] fails. *)
Definition with_failing_chdir {W} (os : OS W) : OS W :=
  {| os_call := fun X who c =>
       match c in Sys X return W -> X * W with
       | Chdir path => fun w => (-1, w)
       | c' => os_call os who c'
       end;
     os_clone := os_clone os;
     os_execl := os_execl os;
     os_exit := os_exit os |}.

(** ** A model of the host *)

(** The host is a tree of directories and files named by paths, the streams
    of the C library over it, and the part of the kernel the runtime talks
    to.  Paths are resolved as the kernel resolves them: from the root
    directory (the model is of an invocation started there), piece by piece.
    There are no symbolic links, and no limit on the length of a name.
    Streams are buffered: what [fprintf] sends reaches the file when the
    stream is closed, and the kernel may refuse it then. *)

Module Host.

Import C.

(** *** Paths *)

(** The pieces of a path between its slashes. *)
Fixpoint pieces (acc : list ascii) (path : string) : list string :=
  match path with
  | EmptyString => [String.string_of_list_ascii (rev acc)]
  | String c rest =>
      if Ascii.eqb c "/"
      then String.string_of_list_ascii (rev acc) :: pieces [] rest
      else pieces (c :: acc) rest
  end.

(** Walking the pieces of a path.  [stack] names the directory reached,
    innermost name first.  An empty piece (a doubled or trailing slash)
    changes nothing; [.] and [..] are entries of the directory reached, which
    has to be there; [..] of the root is the root. *)
Fixpoint walk (there : list string -> bool) (stack : list string)
    (names : list string) : option (list string) :=
  match names with
  | [] => Some stack
  | n :: rest =>
      if String.eqb n "" then walk there stack rest
      else if String.eqb n "." then
        if there stack then walk there stack rest else None
      else if String.eqb n ".." then
        if there stack then walk there (tail stack) rest else None
      else walk there (n :: stack) rest
  end.

(** The path with the names of [stack], innermost first. *)
Definition below (stack : list string) : string :=
  fold_right (fun n acc => acc +:+ "/" +:+ n) "" stack.

Definition join (stack : list string) : string :=
  match stack with
  | [] => "/"
  | _ => below stack
  end.

(** A name that is an entry of its own: not empty, not [.] and not [..],
    and without a slash. *)
Definition entry (n : string) : bool :=
  negb (String.eqb n "") && negb (String.eqb n ".")
  && negb (String.eqb n "..")
  && forallb (fun c => negb (Ascii.eqb c "/")) (String.list_ascii_of_string n).

(** The path [path] leads to when every directory on the way is there: no
    empty piece, no [.] and no [..] is left in it. *)
Definition clean (path : string) : string :=
  join (default [] (walk (fun _ => true) [] (pieces [] path))).

(** A path that ends with a slash, with [.] or with [..] can only name a
    directory; one that ends with [.] or [..] names it as an entry of
    itself or of a directory below it. *)
Definition last_piece (path : string) : string :=
  default "" (last (pieces [] path)).

Definition dotted (path : string) : bool :=
  String.eqb (last_piece path) "." || String.eqb (last_piece path) "..".

Definition dir_only (path : string) : bool :=
  String.eqb (last_piece path) "" || dotted path.

(** The directory a path lies in. *)
Fixpoint cut_last (l : list ascii) : list ascii :=
  match l with
  | [] => []
  | c :: l' => if Ascii.eqb c "/" then l' else cut_last l'
  end.

Definition dirname (path : string) : string :=
  match rev (cut_last (rev (String.list_ascii_of_string path))) with
  | [] => "/"
  | l => String.string_of_list_ascii l
  end.

(** *** The state *)

(** What does not change during an invocation. *)
Record Setting := {
  readonly : gset string;   (* paths that cannot be created or opened for
                               writing: EACCES *)
  busy : gset string;       (* directories that rmdir refuses: EBUSY *)
  refused : gset (string * string);
                            (* the writes the kernel refuses: a file and
                               the text sent to it *)
  exes : gset string;       (* executable files, by host path *)
  heap : bool;              (* malloc finds memory *)
  privileged : bool;        (* clone with namespaces, chroot and mount
                               are permitted *)
  supervisor_pid : Z;
  container_pid : positive;
  image_status : Z          (* exit code of the program the container
                               becomes through execl *)
}.

Record State := {
  setting : Setting;
  dirs : gset string;            (* directories, by host path *)
  files : gmap string string;    (* files, by host path, and their text *)
  streams : gmap nat (string * string);
                                 (* open streams: the file, and the text
                                    that waits in the buffer *)
  root : string;                 (* the root of the container process *)
  pidns : bool;                  (* the container process has a pid name
                                    space of its own *)
  zombie : option Z              (* wait status of the ended container *)
}.

Definition with_dirs (d : gset string) (h : State) : State :=
  {| setting := setting h; dirs := d; files := files h;
     streams := streams h; root := root h; pidns := pidns h;
     zombie := zombie h |}.
Definition with_files (f : gmap string string) (h : State) : State :=
  {| setting := setting h; dirs := dirs h; files := f;
     streams := streams h; root := root h; pidns := pidns h;
     zombie := zombie h |}.
Definition with_streams (s : gmap nat (string * string)) (h : State) : State :=
  {| setting := setting h; dirs := dirs h; files := files h;
     streams := s; root := root h; pidns := pidns h; zombie := zombie h |}.
Definition with_root (r : string) (h : State) : State :=
  {| setting := setting h; dirs := dirs h; files := files h;
     streams := streams h; root := r; pidns := pidns h; zombie := zombie h |}.
Definition with_pidns (b : bool) (h : State) : State :=
  {| setting := setting h; dirs := dirs h; files := files h;
     streams := streams h; root := root h; pidns := b; zombie := zombie h |}.
Definition with_zombie (z : option Z) (h : State) : State :=
  {| setting := setting h; dirs := dirs h; files := files h;
     streams := streams h; root := root h; pidns := pidns h; zombie := z |}.

(** [inside r path] is the host path of [path] for a process whose root is
    [r]; the supervisor sees the host's root. *)
Definition inside (r path : string) : string :=
  if String.eqb r "/" then path
  else if String.eqb path "/" then r
  else r +:+ path.

Definition view (who : Proc) (h : State) : string :=
  match who with
  | Supervisor => "/"
  | Container => root h
  end.

(** The host path a path of the process [who] leads to, if the directories
    it passes through are there; the empty path leads nowhere. *)
Definition resolve (who : Proc) (h : State) (path : string) : option string :=
  if String.eqb path "" then None
  else
    match walk (fun stack =>
                  bool_decide (inside (view who h) (join stack) ∈ dirs h))
            [] (pieces [] path) with
    | Some stack => Some (inside (view who h) (join stack))
    | None => None
    end.

(** Where [resolve] leads when it leads somewhere. *)
Definition target (who : Proc) (h : State) (path : string) : string :=
  inside (view who h) (clean path).

(** The path names a directory that is there, as the supervisor sees it. *)
Definition is_dir (h : State) (path : string) : bool :=
  match resolve Supervisor h path with
  | Some p => bool_decide (p ∈ dirs h)
  | None => false
  end.

(** [rmdir] is refused for the directory the path names: the kernel holds it
    busy, or the path names it as [.] or [..]. *)
Definition kept (h : State) (path : string) : bool :=
  bool_decide (clean path ∈ busy (setting h)) || dotted path.

(** A stream for writing can be had on the path: it names no directory,
    the directory it lies in is there, and the file may be written. *)
Definition writable (who : Proc) (h : State) (path : string) : bool :=
  match resolve who h path with
  | Some p =>
      negb (dir_only path)
      && negb (bool_decide (p ∈ dirs h))
      && bool_decide (dirname p ∈ dirs h)
      && negb (bool_decide (p ∈ readonly (setting h)))
  | None => false
  end.

(** The kernel takes the text for the file: there is nothing to take, or
    it does not refuse it. *)
Definition taken (h : State) (p text : string) : bool :=
  String.eqb text ""
  || negb (bool_decide ((p, text) ∈ refused (setting h))).

Definition int_of_bool (b : bool) : Z := if b then 0 else -1.

Definition fresh (s : gmap nat (string * string)) : nat :=
  S (fold_right Nat.max 0%nat (map fst (map_to_list s))).

(** *** The calls *)

Definition call {X} (who : Proc) (c : Sys X) (h : State) : X * State :=
  match c in Sys X return X * State with
  | Printf _ _ | Eprintf _ _ | Perror _ => (tt, h)
  | Access path _ =>
      match resolve who h path with
      | Some p =>
          (int_of_bool (bool_decide (p ∈ dirs h)
                        || negb (dir_only path)
                           && bool_decide (p ∈ dom (files h))), h)
      | None => (-1, h)
      end
  | Mkdir path _ =>
      match resolve who h path with
      | Some p =>
          if bool_decide (p ∈ dirs h) || bool_decide (p ∈ dom (files h))
          then ((-1, EEXIST), h)
          else if negb (bool_decide (dirname p ∈ dirs h))
          then ((-1, ENOENT), h)
          else if bool_decide (p ∈ readonly (setting h))
          then ((-1, EACCES), h)
          else ((0, 0), with_dirs ({[p]} ∪ dirs h) h)
      | None => ((-1, ENOENT), h)
      end
  | Rmdir path =>
      match resolve who h path with
      | Some p =>
          if negb (bool_decide (p ∈ dirs h))
          then ((-1, if bool_decide (p ∈ dom (files h))
                     then ENOTDIR else ENOENT), h)
          else if String.eqb (last_piece path) "." then ((-1, EINVAL), h)
          else if String.eqb (last_piece path) ".."
          then ((-1, ENOTEMPTY), h)
          else if bool_decide (p ∈ busy (setting h)) then ((-1, EBUSY), h)
          else ((0, 0),
                with_files (filter (fun kv => dirname (fst kv) ≠ p) (files h))
                  (with_dirs (dirs h ∖ {[p]}) h))
      | None => ((-1, ENOENT), h)
      end
  | Fopen path _ =>
      match resolve who h path with
      | Some p =>
          if negb (dir_only path)
             && negb (bool_decide (p ∈ dirs h))
             && bool_decide (dirname p ∈ dirs h)
             && negb (bool_decide (p ∈ readonly (setting h)))
          then
            let f := fresh (streams h) in
            (Some f,
             with_streams (<[f := (p, "")]> (streams h))
               (with_files (<[p := ""]> (files h)) h))
          else (None, h)
      | None => (None, h)
      end
  | Fprintf f _ args =>
      match streams h !! f, args with
      | Some (p, pending), [ArgS v] =>
          (Z.of_nat (String.length v),
           with_streams (<[f := (p, pending +:+ v)]> (streams h)) h)
      | _, _ => (-1, h)
      end
  | Fclose f =>
      match streams h !! f with
      | Some (p, pending) =>
          let h' := with_streams (delete f (streams h)) h in
          if String.eqb pending "" then (0, h')
          else if bool_decide ((p, pending) ∈ refused (setting h))
          then (-1, h')
          else (0, with_files
                     (<[p := default "" (files h !! p) +:+ pending]> (files h))
                     h')
      | None => (-1, h)
      end
  | Malloc _ => (if heap (setting h) then Some 4096 else None, h)
  | Free _ => (tt, h)
  | Waitpid pid _ =>
      match zombie h with
      | Some status =>
          if pid =? Z.pos (container_pid (setting h))
          then ((pid, status), with_zombie None h)
          else ((-1, 0), h)
      | None => ((-1, 0), h)
      end
  | Getpid =>
      (match who with
       | Supervisor => supervisor_pid (setting h)
       | Container =>
           if pidns h then 1 else Z.pos (container_pid (setting h))
       end, h)
  | Chroot path =>
      match who, resolve who h path with
      | Container, Some p =>
          if privileged (setting h) && bool_decide (p ∈ dirs h)
          then (0, with_root p h) else (-1, h)
      | _, _ => (-1, h)
      end
  | Chdir path =>
      match resolve who h path with
      | Some p => (int_of_bool (bool_decide (p ∈ dirs h)), h)
      | None => (-1, h)
      end
  | Mount _ target _ _ =>
      match resolve who h target with
      | Some p =>
          (int_of_bool (privileged (setting h)
                        && bool_decide (p ∈ dirs h)), h)
      | None => (-1, h)
      end
  end.

(** [clone] with new name spaces needs the privilege.  The new process
    sees the root of the host, and pid 1 for itself when it was given a pid
    name space. *)
Definition do_clone (flags : Z) (h : State) : option positive * State :=
  let spaces := Z.land flags (Z.lor CLONE_NEWPID CLONE_NEWNS) in
  if privileged (setting h) || (spaces =? 0)
  then (Some (container_pid (setting h)),
        with_pidns (negb (Z.land flags CLONE_NEWPID =? 0)) (with_root "/" h))
  else (None, h).

Definition do_execl (who : Proc) (path : string) (argv : list string)
    (h : State) : option Z * State :=
  match resolve who h path with
  | Some p =>
      if bool_decide (p ∈ exes (setting h)) then (None, h) else (Some (-1), h)
  | None => (Some (-1), h)
  end.

(** The wait status of a container that returned [code] from its entry
    point, or that ended as the program it became. *)
Definition do_exit (code : option Z) (h : State) : State :=
  let code := default (image_status (setting h)) code in
  with_zombie (Some (Z.shiftl (Z.land code 255) 8)) h.

Definition os : OS State :=
  {| os_call := @call;
     os_clone := do_clone;
     os_execl := do_execl;
     os_exit := do_exit |}.

(** *** Some hosts *)

(** A host with control groups mounted and a root file system for the
    container under [/srv/rootfs]. *)
Definition plain : Setting :=
  {| readonly := ∅; busy := ∅; refused := ∅;
     exes := {[ "/srv/rootfs/bin/bash"; "/srv/rootfs/bin/true" ]};
     heap := true; privileged := true;
     supervisor_pid := 4242; container_pid := 4243%positive;
     image_status := 0 |}.

Definition linux : State :=
  {| setting := plain;
     dirs := {[ "/"; "/sys"; "/sys/fs"; "/sys/fs/cgroup"; "/srv";
                "/srv/rootfs"; "/srv/rootfs/proc"; "/srv/rootfs/bin" ]};
     files := {[ "/sys/fs/cgroup/cgroup.controllers" := "cpu memory";
                 "/sys/fs/cgroup/cgroup.subtree_control" := "" ]};
     streams := ∅; root := "/"; pidns := false; zombie := None |}.

Definition with_setting (s : Setting) (h : State) : State :=
  {| setting := s; dirs := dirs h; files := files h;
     streams := streams h; root := root h; pidns := pidns h;
     zombie := zombie h |}.


(** The same host with a root file system that has no shell. *)
Definition no_shell : State :=
  with_setting
    {| readonly := ∅; busy := ∅; refused := ∅;
       exes := {[ "/srv/rootfs/bin/true" ]};
       heap := true; privileged := true;
       supervisor_pid := 4242; container_pid := 4243%positive;
       image_status := 0 |}
    linux.

(** The same host on which the limit files of the group [t1] cannot be
    opened for writing, and one on which the group [t1] was left by an
    earlier run. *)
Definition no_limits : State :=
  with_setting
    {| readonly := {[ "/sys/fs/cgroup/minirun-t1/memory.max";
                      "/sys/fs/cgroup/minirun-t1/cpu.max" ]};
       busy := ∅; refused := ∅; exes := exes plain;
       heap := true; privileged := true;
       supervisor_pid := 4242; container_pid := 4243%positive;
       image_status := 0 |}
    linux.

Definition stale : State :=
  with_dirs ({[ "/sys/fs/cgroup/minirun-t1" ]} ∪ dirs linux) linux.

(** The same host with a kernel that does not take a quota of 0 for the
    group [t1]: the write of [0 100000] to its [cpu.max] is refused. *)
Definition strict : State :=
  with_setting
    {| readonly := ∅; busy := ∅;
       refused := {[ ("/sys/fs/cgroup/minirun-t1/cpu.max", "0 100000") ]};
       exes := exes plain;
       heap := true; privileged := true;
       supervisor_pid := 4242; container_pid := 4243%positive;
       image_status := 0 |}
    linux.

End Host.

Arguments Host.resolve : simpl never.
Arguments Host.clean : simpl never.
Arguments Host.last_piece : simpl never.
Arguments Host.dotted : simpl never.
Arguments Host.dir_only : simpl never.
Arguments Host.dirname : simpl never.
Arguments Host.fresh : simpl never.

(** An invocation on that host, and the configuration it leads to. *)
Definition t1 : list string :=
  ["minirun"; "t1"; "/srv/rootfs"; "/bin/true"].

Definition t1_config : ContainerConfig := Runtime.main_config t1.

(** ** The shape of an invocation *)

(** What [main] prints before provisioning, and the warning after it. *)
Definition banner (config : ContainerConfig) : list Event :=
  [ EvCall (Printf "=== MiniRun Container Runtime ===\n" []) tt;
    EvCall (Printf "Starting container: %s\n" [ArgS (name config)]) tt;
    EvCall (Printf "Root filesystem: %s\n" [ArgS (rootfs_path config)]) tt;
    EvCall (Printf "Command: %s\n\n" [ArgS (command config)]) tt;
    EvCall (Printf "Limits: %ldMB RAM, %d%% CPU\n\n"
              [ArgD (Z.quot (memory_limit config) (1024 * 1024));
               ArgD (cpu_limit config)]) tt ].

Definition warning (cgroups_enabled : Z) : list Event :=
  if cgroups_enabled =? 0
  then [EvCall (Printf "⚠️  WARNING: Running without resource limits\n\n" [])
          tt]
  else [].

Definition clone_flags : Z :=
  Z.lor (Z.lor C.CLONE_NEWPID C.CLONE_NEWNS) C.SIGCHLD.

(** The three ways [main] goes on after provisioning: no stack, no process,
    or a container that is waited for.  Each gives the calls made, the
    result of [main] and the processes started. *)
Inductive Launch {W} (os : OS W) (config : ContainerConfig)
  : list Event -> Outcome Z -> list (positive * (list Event * Outcome Z))
    -> Prop :=
| launch_no_stack x :
    Launch os config
      [ EvCall (Malloc (1024 * 1024)) None;
        EvCall (Perror "malloc failed") tt;
        EvCall (Rmdir (Runtime.cleanup_cgroup_path (name config))) x ]
      (Returned 1) []
| launch_no_process stack x :
    Launch os config
      [ EvCall (Malloc (1024 * 1024)) (Some stack);
        EvClone Fn_child_function clone_flags config (-1);
        EvCall (Perror "clone failed") tt;
        EvCall (Free stack) tt;
        EvCall (Rmdir (Runtime.cleanup_cgroup_path (name config))) x ]
      (Returned 1) []
| launch_container stack pid w status x :
    Launch os config
      [ EvCall (Malloc (1024 * 1024)) (Some stack);
        EvClone Fn_child_function clone_flags config (Z.pos pid);
        EvCall (Printf "Container PID: %d\n" [ArgD (Z.pos pid)]) tt;
        EvCall (Waitpid (Z.pos pid) 0) status;
        EvCall (Printf "\n=== Container [%s] stopped ===\n"
                  [ArgS (name config)]) tt;
        EvCall (Free stack) tt;
        EvCall (Rmdir (Runtime.cleanup_cgroup_path (name config))) x ]
      (Returned 0)
      [(pid, (trace (run_child os config w), outcome (run_child os config w)))].

(** [child_function] in two parts: joining the group, and what follows. *)
Definition join_cgroup (config : ContainerConfig) : Prog unit :=
  call (Printf "Container [%s] starting...\n" [ArgS (name config)]);;
  pid ← call Getpid;
  call (Printf "PID: %d\n" [ArgD pid]);;
  pid' ← call Getpid;
  let pid_str := C.snprintf 32 (C.fmt_d pid') in
  cgroup_file ← call (Fopen (Runtime.cgroup_procs_path (name config)) "w");
  match cgroup_file with
  | Some f =>
      n ← call (Fprintf f "%s" [ArgS pid_str]);
      (if 0 <? n then
         call (Printf "✓ Resource limits applied to this container\n" [])
       else
         call (Eprintf "⚠️  Warning: Could not write PID to cgroup\n" []));;
      call (Fclose f);;
      mret tt
  | None =>
      call (Eprintf "⚠️  Warning: Running without resource limits\n" [])
  end.

Definition confine_and_exec (config : ContainerConfig) : Prog Z :=
  c ← call (Chroot (rootfs_path config));
  if negb (c =? 0) then
    call (Perror "chroot failed");;
    mret 1
  else
    call (Chdir "/");;
    m ← call (Mount "proc" "/proc" "proc" 0);
    (if negb (m =? 0) then
       call (Perror "Warning: mount /proc failed (ps command may not work)")
     else mret tt);;
    call (Printf "Container ready! You can now run commands inside.\n\n" []);;
    execl "/bin/bash" ["bash"; "-c"; command config];;
    call (Perror "exec failed");;
    mret 1.

(** The steps of [child_function].  The join: the membership file is asked
    for and, when it could be opened, the pid is sent to it and the stream
    is closed.  The confinement: [chroot] and, when it returned 0, the change
    of directory, the mount and the shell. *)
Definition join_steps (config : ContainerConfig) (sent : option (Z * Z * Z))
  : list Step :=
  Join (Runtime.cgroup_procs_path (name config)) ::
  match sent with
  | Some (pid, n, c) => [Sent [ArgS (C.fmt_d pid)] n; Closed c]
  | None => []
  end.

Definition confine_steps (config : ContainerConfig) (c d m : Z)
    (e : option Z) : list Step :=
  Confine (rootfs_path config) c ::
  if c =? 0
  then [ Workdir "/" d; MountProc "/proc" m;
         Exec "/bin/bash" ["bash"; "-c"; command config] e ]
  else [].

Definition child_outcome (config : ContainerConfig) (c : Z) (e : option Z)
  : Outcome Z :=
  if c =? 0
  then match e with
       | None => Replaced "/bin/bash" ["bash"; "-c"; command config]
       | Some _ => Returned 1
       end
  else Returned 1.

(** The part of [setup_cgroups] that follows the creation of the group. *)
Definition configure_limits (container_name : string)
    (memory_limit_bytes cpu_percent : Z) : Prog Z :=
  let cgroup_path := Runtime.setup_cgroup_path container_name in
  Runtime.write_cgroup_file "/sys/fs/cgroup/cgroup.subtree_control"
    "+cpu +memory";;
  let value := C.snprintf 128 (C.fmt_d memory_limit_bytes) in
  r1 ← Runtime.write_cgroup_file (Runtime.memory_max_path container_name)
         value;
  success1 ←
    (if negb (r1 =? 0) then
       call (Eprintf "⚠️  Failed to set memory limit: %s\n" [ArgErrno]);;
       call (Eprintf "   Check if memory controller is enabled\n" []);;
       mret 0
     else mret 1);
  r2 ← Runtime.write_cgroup_file (Runtime.cpu_max_path container_name)
         (Runtime.cpu_max_value cpu_percent);
  success ←
    (if negb (r2 =? 0) then
       call (Eprintf "⚠️  Failed to set CPU limit: %s\n" [ArgErrno]);;
       call (Eprintf "   Check if CPU controller is enabled\n" []);;
       mret 0
     else mret success1);
  (if negb (success =? 0) then
     call (Printf "✓ Resource limits configured:\n" []);;
     call (Printf "  - Memory: %ldMB\n"
             [ArgD (Z.quot memory_limit_bytes (1024 * 1024))]);;
     call (Printf "  - CPU: %d%% of one core\n" [ArgD cpu_percent]);;
     call (Printf "  - Cgroup: %s\n\n" [ArgS cgroup_path])
   else mret tt);;
  mret success.

(** The calls of [write_cgroup_file path value] and its result: the stream
    is refused, or it is opened, written to and closed. *)
Inductive Written (path value : string) : list Event -> Z -> Prop :=
| written_no_stream :
    Written path value [EvCall (Fopen path "w") None] (-1)
| written_stream f n c :
    Written path value
      [ EvCall (Fopen path "w") (Some f);
        EvCall (Fprintf f "%s" [ArgS value]) n;
        EvCall (Fclose f) c ]
      (if n <? 0 then -1 else 0).

(** What [setup_cgroups] prints after a write that failed, and after
    success. *)
Definition memory_complaint (r : Z) : list Event :=
  if negb (r =? 0)
  then [ EvCall (Eprintf "⚠️  Failed to set memory limit: %s\n" [ArgErrno]) tt;
         EvCall (Eprintf "   Check if memory controller is enabled\n" []) tt ]
  else [].

Definition cpu_complaint (r : Z) : list Event :=
  if negb (r =? 0)
  then [ EvCall (Eprintf "⚠️  Failed to set CPU limit: %s\n" [ArgErrno]) tt;
         EvCall (Eprintf "   Check if CPU controller is enabled\n" []) tt ]
  else [].

Definition report (container_name : string) (memory_limit_bytes cpu_percent : Z)
    (success : Z) : list Event :=
  if negb (success =? 0)
  then [ EvCall (Printf "✓ Resource limits configured:\n" []) tt;
         EvCall (Printf "  - Memory: %ldMB\n"
                   [ArgD (Z.quot memory_limit_bytes (1024 * 1024))]) tt;
         EvCall (Printf "  - CPU: %d%% of one core\n" [ArgD cpu_percent]) tt;
         EvCall (Printf "  - Cgroup: %s\n\n"
                   [ArgS (Runtime.setup_cgroup_path container_name)]) tt ]
  else [].

(** The result of [setup_cgroups] from the results of the two writes. *)
Definition limits_applied (r1 r2 : Z) : Z :=
  if negb (r2 =? 0) then 0 else if negb (r1 =? 0) then 0 else 1.

(** The three ways [setup_cgroups] goes, with the calls made and the
    result: no hierarchy, no directory, or limits written one after the
    other. *)
Inductive Provisioned (container_name : string)
    (memory_limit_bytes cpu_percent : Z) : list Event -> Z -> Prop :=
| provisioned_unavailable a :
    a <> 0 ->
    Provisioned container_name memory_limit_bytes cpu_percent
      [ EvCall (Access "/sys/fs/cgroup/cgroup.controllers" C.F_OK) a;
        EvCall (Eprintf "⚠️  Cgroups v2 not available on this system\n" []) tt;
        EvCall (Eprintf "   Container will run without resource limits\n" [])
          tt ]
      0
| provisioned_no_directory m errno :
    m <> 0 -> errno <> C.EEXIST ->
    Provisioned container_name memory_limit_bytes cpu_percent
      [ EvCall (Access "/sys/fs/cgroup/cgroup.controllers" C.F_OK) 0;
        EvCall (Mkdir (Runtime.setup_cgroup_path container_name) C.mode_0755)
          (m, errno);
        EvCall (Eprintf "⚠️  Failed to create cgroup directory: %s\n"
                  [ArgErrno]) tt;
        EvCall (Eprintf "   Try running with sudo or check permissions\n" [])
          tt ]
      0
| provisioned_limits m errno t0 r0 t1 r1 t2 r2 :
    m = 0 \/ errno = C.EEXIST ->
    Written "/sys/fs/cgroup/cgroup.subtree_control" "+cpu +memory" t0 r0 ->
    Written (Runtime.memory_max_path container_name)
      (C.snprintf 128 (C.fmt_d memory_limit_bytes)) t1 r1 ->
    Written (Runtime.cpu_max_path container_name)
      (Runtime.cpu_max_value cpu_percent) t2 r2 ->
    Provisioned container_name memory_limit_bytes cpu_percent
      ([ EvCall (Access "/sys/fs/cgroup/cgroup.controllers" C.F_OK) 0;
         EvCall (Mkdir (Runtime.setup_cgroup_path container_name) C.mode_0755)
           (m, errno) ]
       ++ t0 ++ t1 ++ memory_complaint r1 ++ t2 ++ cpu_complaint r2
       ++ report container_name memory_limit_bytes cpu_percent
            (limits_applied r1 r2))
      (limits_applied r1 r2).

(** The directory could not be created, and not because it exists. *)
Definition mkdir_failed (tr : list Event) : bool :=
  existsb (fun e => match e with
                    | EvCall (Mkdir _ _) (m, errno) =>
                        negb (m =? 0) && negb (errno =? C.EEXIST)
                    | _ => false
                    end) tr.

(** What [setup_cgroups] takes for a failure: no hierarchy, no directory, or
    a limit file of the group [container_name] whose stream was refused or
    whose [fprintf] answered a negative number.  What [fclose] answers is
    not among them. *)
Definition provisioning_failed (container_name : string) (tr : list Event)
  : bool :=
  hierarchy_missing tr || mkdir_failed tr
  || write_failed (Runtime.memory_max_path container_name) tr
  || write_failed (Runtime.cpu_max_path container_name) tr.

(** [execl] returned. *)
Definition exec_refused (tr : list Event) : bool :=
  existsb (fun e => match e with
                    | EvExecl _ _ (Some _) => true
                    | _ => false
                    end) tr.

(** [chroot] was refused. *)
Definition confinement_failed (tr : list Event) : bool :=
  existsb (fun e => match e with
                    | EvCall (Chroot _) c => negb (c =? 0)
                    | _ => false
                    end) tr.

(** ** Two statements of the specification that the source does not meet *)



(** ** Further observations on traces *)

(** The pointers given to [free], the answers of [getpid], and the paths on
    which a stream was asked for. *)
Definition frees (tr : list Event) : list Z :=
  omap (fun e => match e with
                 | EvCall (Free ptr) _ => Some ptr
                 | _ => None
                 end) tr.

Definition getpids (tr : list Event) : list Z :=
  omap (fun e => match e with
                 | EvCall Getpid pid => Some pid
                 | _ => None
                 end) tr.

Definition fopens (tr : list Event) : list string :=
  omap (fun e => match e with
                 | EvCall (Fopen path _) _ => Some path
                 | _ => None
                 end) tr.

(** [printf] was called with the format [fmt]. *)
Definition printed (fmt : string) (tr : list Event) : bool :=
  existsb (fun e => match e with
                    | EvCall (Printf f _) _ => String.eqb f fmt
                    | _ => false
                    end) tr.

(** The streams that are open after [tr], given those open before it. *)
Fixpoint remove_stream (f : FILE) (open : list FILE) : list FILE :=
  match open with
  | [] => []
  | g :: rest => if Nat.eqb f g then rest else g :: remove_stream f rest
  end.

Fixpoint open_streams (open : list FILE) (tr : list Event) : list FILE :=
  match tr with
  | [] => open
  | EvCall (Fopen _ _) (Some f) :: tr' => open_streams (f :: open) tr'
  | EvCall (Fclose f) _ :: tr' => open_streams (remove_stream f open) tr'
  | _ :: tr' => open_streams open tr'
  end.

(** The calls that confine a process or replace its image, and the calls
    by which the supervisor manages the group and the container. *)
Definition confining (e : Event) : bool :=
  match e with
  | EvCall (Chroot _) _ | EvCall (Chdir _) _ | EvCall (Mount _ _ _ _) _
  | EvExecl _ _ _ => true
  | _ => false
  end.

Definition managing (e : Event) : bool :=
  match e with
  | EvCall (Access _ _) _ | EvCall (Mkdir _ _) _ | EvCall (Rmdir _) _
  | EvCall (Malloc _) _ | EvCall (Free _) _ | EvCall (Waitpid _ _) _
  | EvClone _ _ _ _ => true
  | _ => false
  end.

(** What [clone] was asked to start: the entry point, the flags and the
    argument. *)
Definition started (tr : list Event) : list (FnPtr * Z * ContainerConfig) :=
  omap (fun e => match e with
                 | EvClone fn flags arg _ => Some (fn, flags, arg)
                 | _ => None
                 end) tr.

(** ** Further classes of programs *)

(** The calls of [main] for the container [container_name]: terminal output,
    the calls of [setup_cgroups] on the directory it builds, the stack, the
    wait, and [rmdir] on the directory [cleanup_cgroups] builds. *)
Definition main_calls (container_name : string) (X : Type) (c : Sys X)
  : bool :=
  match c with
  | Printf _ _ | Eprintf _ _ | Perror _ | Access _ _
  | Fopen _ _ | Fprintf _ _ _ | Fclose _
  | Malloc _ | Free _ | Waitpid _ _ => true
  | Mkdir path _ => String.eqb path (Runtime.setup_cgroup_path container_name)
  | Rmdir path => String.eqb path (Runtime.cleanup_cgroup_path container_name)
  | _ => false
  end.

(** The calls of [child_function]. *)
Definition child_calls (X : Type) (c : Sys X) : bool :=
  match c with
  | Printf _ _ | Eprintf _ _ | Perror _ | Getpid
  | Fopen _ _ | Fprintf _ _ _ | Fclose _
  | Chroot _ | Chdir _ | Mount _ _ _ _ => true
  | _ => false
  end.

(** Every call. *)
Definition any_call (X : Type) (c : Sys X) : bool := true.

(** [ends_with_rmdir ok path p]: [p] makes the calls [ok] allows and does
    not replace its image, and on every way through [p] the last call is
    [rmdir path]. *)
Inductive ends_with_rmdir (ok : forall X, Sys X -> bool) (path : string)
    {A : Type} : Prog A -> Prop :=
| ends_with_rmdir_here k a :
    (forall x, k x = Ret a) -> ends_with_rmdir ok path (Vis (Rmdir path) k)
| ends_with_rmdir_vis {X} (c : Sys X) k :
    ok X c = true -> (forall x, ends_with_rmdir ok path (k x)) ->
    ends_with_rmdir ok path (Vis c k)
| ends_with_rmdir_clone fn st fl arg k :
    (forall x, ends_with_rmdir ok path (k x)) ->
    ends_with_rmdir ok path (Clone fn st fl arg k).

(** [main] after provisioning: the warning, the stack, the container and
    the cleanup. *)
Definition supervise (config : ContainerConfig) (cgroups_enabled : Z)
  : Prog Z :=
  (if cgroups_enabled =? 0 then
     call (Printf "⚠️  WARNING: Running without resource limits\n\n" [])
   else mret tt);;
  stack ← call (Malloc (1024 * 1024));
  match stack with
  | None =>
      call (Perror "malloc failed");;
      Runtime.cleanup_cgroups (name config);;
      mret 1
  | Some stack =>
      child_pid ← clone Fn_child_function (stack + 1024 * 1024)
                    (Z.lor (Z.lor C.CLONE_NEWPID C.CLONE_NEWNS) C.SIGCHLD)
                    config;
      if child_pid =? -1 then
        call (Perror "clone failed");;
        call (Free stack);;
        Runtime.cleanup_cgroups (name config);;
        mret 1
      else
        call (Printf "Container PID: %d\n" [ArgD child_pid]);;
        call (Waitpid child_pid 0);;
        call (Printf "\n=== Container [%s] stopped ===\n"
                [ArgS (name config)]);;
        call (Free stack);;
        Runtime.cleanup_cgroups (name config);;
        mret 0
  end.

(** A name without a slash. *)
Fixpoint slashless (s : string) : bool :=
  match s with
  | EmptyString => true
  | String c rest => negb (Ascii.eqb c "/") && slashless rest
  end.

(** A container name of 240 bytes. *)
Definition long_name : string :=
  String.string_of_list_ascii (repeat "a"%char 240).

(** * Properties *)

(** ** Sequencing *)

Section Sequencing.

Context {W : Type} (os : OS W).
Variable start : FnPtr -> ContainerConfig -> W -> (list Event * Outcome Z) * W.

Lemma after_seq_run {A B} e kids (p : Run W A) (q : Run W B) :
  after e kids (seq_run p q) = seq_run (after e kids p) q.
Proof.
  unfold after, seq_run; cbn. by rewrite app_assoc.
Qed.

Lemma run_bind {A B} who (p : Prog A) (f : A -> Prog B) w :
  run os start who (bind p f) w =
  match outcome (run os start who p w) with
  | Returned a =>
      seq_run (run os start who p w)
        (run os start who (f a) (world (run os start who p w)))
  | Replaced path argv => stop (run os start who p w) path argv
  end.
Proof.
  revert w. induction p as [a | X c k IH | fn st fl arg k IH | path argv k IH];
    intros w; cbn.
  - unfold seq_run; cbn. by destruct (run os start who (f a) w).
  - destruct (os_call os who c w) as [x w1]. rewrite IH. cbn.
    destruct (outcome (run os start who (k x) w1)); [|done].
    by rewrite after_seq_run.
  - destruct (os_clone os fl w) as [[pid|] w1].
    + destruct (start fn arg w1) as [child w2]. rewrite IH. cbn.
      destruct (outcome (run os start who (k (Z.pos pid)) w2)); [|done].
      by rewrite after_seq_run.
    + rewrite IH. cbn.
      destruct (outcome (run os start who (k (-1)) w1)); [|done].
      by rewrite after_seq_run.
  - destruct (os_execl os who path argv w) as [[r|] w1]; [|done].
    rewrite IH. cbn.
    destruct (outcome (run os start who (k r) w1)); [|done].
    by rewrite after_seq_run.
Qed.

End Sequencing.

(** ** Programs by the calls they make *)

Section Discipline.

Context {W : Type} (os : OS W).
Variable start : FnPtr -> ContainerConfig -> W -> (list Event * Outcome Z) * W.
Variable ok : forall X, Sys X -> bool.

Lemma uses_bind {A B} ctl (p : Prog A) (f : A -> Prog B) :
  uses ok ctl p -> (forall a, uses ok ctl (f a)) -> uses ok ctl (bind p f).
Proof.
  intros Hp Hf. induction Hp; cbn; [apply Hf | constructor; auto ..].
Qed.

(** Every call in the trace is one the program may make. *)
Lemma uses_trace {A} ctl (p : Prog A) who w :
  uses ok ctl p ->
  forallb (event_ok ok ctl) (trace (run os start who p w)) = true.
Proof.
  intros Hp. revert w.
  induction Hp as [a | X c k Hc _ IH | fn st fl arg k Hctl _ IH
                  | path argv k Hctl _ IH]; intros w; cbn.
  - done.
  - destruct (os_call os who c w) as [x w1]. cbn. by rewrite Hc, IH.
  - destruct (os_clone os fl w) as [[pid|] w1].
    + destruct (start fn arg w1) as [child w2]. cbn. by rewrite IH, Hctl.
    + cbn. by rewrite IH, Hctl.
  - destruct (os_execl os who path argv w) as [[r|] w1]; cbn;
      by rewrite ?IH, Hctl.
Qed.

(** A program that makes fewer calls makes no other. *)
Lemma uses_weaken {A} (ok' : forall X, Sys X -> bool) ctl (p : Prog A) :
  (forall X (c : Sys X), ok X c = true -> ok' X c = true) ->
  uses ok ctl p -> uses ok' ctl p.
Proof. intros Hok Hp. induction Hp; constructor; auto. Qed.

(** A program without [clone] and [execl] returns and starts nothing. *)
Lemma straight_returns {A} (p : Prog A) who w :
  uses ok false p ->
  (exists a, outcome (run os start who p w) = Returned a) /\
  spawned (run os start who p w) = [].
Proof.
  intros Hp. revert w.
  induction Hp as [a | X c k Hc _ IH | | ]; intros w; cbn; try done.
  - eauto.
  - destruct (os_call os who c w) as [x w1]. cbn. apply IH.
Qed.

(** What every allowed call preserves holds at the end. *)
Lemma uses_invariant {A} (I : W -> Prop) (p : Prog A) who w :
  (forall X (c : Sys X) w, ok X c = true -> I w ->
                           I (snd (os_call os who c w))) ->
  uses ok false p -> I w -> I (world (run os start who p w)).
Proof.
  intros HI Hp. revert w.
  induction Hp as [a | X c k Hc _ IH | | ]; intros w Hw; cbn; try done.
  specialize (HI X c w Hc Hw).
  destruct (os_call os who c w) as [x w1]. cbn in *. by apply IH.
Qed.

End Discipline.

(** Selections that pick no allowed call find nothing in the trace. *)
Lemma omap_none_of {A} (sel : Event -> option A) (good : Event -> bool) tr :
  (forall e, good e = true -> sel e = None) ->
  forallb good tr = true -> omap sel tr = [].
Proof.
  intros Hsel. induction tr as [|e tr IH]; cbn; [done|].
  intros [He Htr]%andb_prop. rewrite (Hsel e He). auto.
Qed.

Lemma existsb_none_of (sel good : Event -> bool) tr :
  (forall e, good e = true -> sel e = false) ->
  forallb good tr = true -> existsb sel tr = false.
Proof.
  intros Hsel. induction tr as [|e tr IH]; cbn; [done|].
  intros [He Htr]%andb_prop. rewrite (Hsel e He). auto.
Qed.

(** Where no [rmdir] is called, the answers to [rmdir] do not matter. *)
Lemma run_with_rmdir {W A} (os : OS W) f start start' ctl who (p : Prog A) w :
  (forall fn arg w, start' fn arg w = start fn arg w) ->
  uses not_rmdir ctl p ->
  run (with_rmdir f os) start' who p w = run os start who p w.
Proof.
  intros Hst Hp. revert w.
  induction Hp as [a | X c k Hc _ IH | fn st fl arg k _ _ IH
                  | path argv k _ _ IH]; intros w; cbn.
  - done.
  - destruct c; try discriminate Hc; cbn;
      match goal with
      | |- context [os_call os who ?c w] =>
          destruct (os_call os who c w) as [x w1]; by rewrite IH
      end.
  - destruct (os_clone os fl w) as [[pid|] w1]; [|by rewrite IH].
    rewrite Hst. destruct (start fn arg w1) as [child w2]. by rewrite IH.
  - destruct (os_execl os who path argv w) as [[r|] w1]; [|done].
    by rewrite IH.
Qed.

(** Walking a program node by node. *)
Ltac walk :=
  repeat first
    [ progress cbn
    | progress unfold mbind, prog_bind, mret, prog_ret, call, clone, execl
    | match goal with
      | |- forall _, _ => intro
      | |- uses _ _ (Ret _) => apply uses_ret
      | |- uses _ _ (Vis _ _) => apply uses_vis; [reflexivity|]
      | |- uses _ _ (Clone _ _ _ _ _) => apply uses_clone; [reflexivity|]
      | |- uses _ _ (Execl _ _ _) => apply uses_execl; [reflexivity|]
      | |- uses _ _ (match ?x with _ => _ end) => destruct x
      | |- uses _ _ (bind (match ?x with _ => _ end) _) => destruct x
      | |- uses _ _ (bind (bind (match ?x with _ => _ end) _) _) => destruct x
      end ].

(** Running a program against every answer of the operating system. *)
Ltac answer :=
  match goal with
  | |- context [os_call ?os ?who ?c ?w] =>
      let x := fresh "x" in let w' := fresh "w" in let E := fresh "E" in
      destruct (os_call os who c w) as [x w'] eqn:E
  | |- context [os_clone ?os ?fl ?w] =>
      let E := fresh "E" in destruct (os_clone os fl w) as [[?|] ?] eqn:E
  | |- context [os_execl ?os ?who ?p ?a ?w] =>
      let E := fresh "E" in destruct (os_execl os who p a w) as [[?|] ?] eqn:E
  end.

Ltac branch :=
  match goal with
  | |- context [match ?x with (_, _) => _ end] => is_var x; destruct x
  | |- context [match ?x with Some _ => _ | None => _ end] =>
      is_var x; destruct x
  | |- context [if ?b then _ else _] => let E := fresh "E" in destruct b eqn:E
  end.

Ltac explore :=
  repeat (cbn;
          first [ answer | branch
                | progress unfold mret, prog_ret, mbind, prog_bind ]);
  cbn.

(** [over_runs t]: the goal, for each way the run [t] can go. *)
Ltac over_runs t :=
  let r := fresh "r" in
  let Hr := fresh "Hr" in
  remember t as r eqn:Hr; revert Hr.

(** What the tests of the source say about the numbers tested. *)
Ltac numbers :=
  repeat match goal with
    | H : negb _ = true |- _ => apply negb_true_iff in H
    | H : negb _ = false |- _ => apply negb_false_iff in H
    | H : (_ =? _) = true |- _ => apply Z.eqb_eq in H; subst
    | H : (_ =? _) = false |- _ => apply Z.eqb_neq in H
    | x : unit |- _ => destruct x
    end.

Lemma write_cgroup_file_calls path value :
  uses not_rmdir false (Runtime.write_cgroup_file path value).
Proof. unfold Runtime.write_cgroup_file. walk. Qed.

Lemma setup_cgroups_calls name mem p :
  uses setup_calls false (Runtime.setup_cgroups name mem p).
Proof. unfold Runtime.setup_cgroups. walk. Qed.

Lemma configure_limits_calls name mem p :
  uses not_rmdir false (configure_limits name mem p).
Proof. unfold configure_limits, Runtime.write_cgroup_file. walk. Qed.

Lemma join_cgroup_calls config : uses stream_calls false (join_cgroup config).
Proof. unfold join_cgroup. walk. Qed.

(** No event of a kind the program does not produce is in its trace. *)
Lemma setup_cgroups_selects {W A} (os : OS W) start who w name mem p
    (sel : Event -> option A) :
  (forall e, event_ok setup_calls false e = true -> sel e = None) ->
  omap sel (trace (run os start who (Runtime.setup_cgroups name mem p) w))
  = [].
Proof.
  intros Hsel. apply (omap_none_of _ _ _ Hsel).
  apply uses_trace, setup_cgroups_calls.
Qed.

Lemma child_function_calls config :
  uses not_rmdir true (Runtime.child_function config).
Proof. unfold Runtime.child_function. walk. Qed.

(** The two parts of [child_function], and the two of [setup_cgroups]. *)
Lemma child_function_parts config :
  Runtime.child_function config =
  bind (join_cgroup config) (fun _ => confine_and_exec config).
Proof. reflexivity. Qed.

Lemma setup_cgroups_parts name mem p :
  Runtime.setup_cgroups name mem p =
  Vis (Access "/sys/fs/cgroup/cgroup.controllers" C.F_OK) (fun a =>
    if negb (a =? 0) then
      Vis (Eprintf "⚠️  Cgroups v2 not available on this system\n" [])
        (fun _ =>
      Vis (Eprintf "   Container will run without resource limits\n" [])
        (fun _ => Ret 0))
    else
      Vis (Mkdir (Runtime.setup_cgroup_path name) C.mode_0755)
        (fun '(m, errno) =>
        if negb (m =? 0) && negb (errno =? C.EEXIST) then
          Vis (Eprintf "⚠️  Failed to create cgroup directory: %s\n"
                 [ArgErrno]) (fun _ =>
          Vis (Eprintf "   Try running with sudo or check permissions\n" [])
            (fun _ => Ret 0))
        else configure_limits name mem p)).
Proof. reflexivity. Qed.

(** ** Paths and numbers *)

Lemma substring_all n s :
  (String.length s <= n)%nat -> String.substring 0 n s = s.
Proof.
  revert n. induction s as [|c s IH]; intros [|n] Hn; cbn in *;
    try done; try lia.
  f_equal. apply IH. lia.
Qed.

Lemma substring_length n s : (String.length (String.substring 0 n s) <= n)%nat.
Proof.
  revert n. induction s as [|c s IH]; intros [|n]; cbn; try lia.
  specialize (IH n). lia.
Qed.

Lemma string_length_app (s t : string) :
  String.length (s +:+ t) = (String.length s + String.length t)%nat.
Proof. induction s as [|c s IH]; simpl; [done | by rewrite IH]. Qed.

Lemma string_app_assoc (s t u : string) : (s +:+ t) +:+ u = s +:+ (t +:+ u).
Proof.
  induction s as [|c s IH]; [done|].
  change (String c ((s +:+ t) +:+ u) = String c (s +:+ (t +:+ u))).
  by f_equal.
Qed.

Lemma string_app_inv_head (s t u : string) : s +:+ t = s +:+ u -> t = u.
Proof. induction s as [|c s IH]; simpl; [done|]. intros [=]. auto. Qed.

Section Paths.

Import Runtime.

Lemma setup_cgroup_path_prefix name :
  setup_cgroup_path name =
  "/sys/fs/cgroup/minirun-" +:+ String.substring 0 232 name.
Proof. reflexivity. Qed.

Lemma setup_cgroup_path_length name :
  (String.length (setup_cgroup_path name) <= 255)%nat.
Proof. apply (substring_length 255). Qed.

Lemma memory_max_path_eq name :
  memory_max_path name = setup_cgroup_path name +:+ "/memory.max".
Proof.
  unfold memory_max_path, C.snprintf. apply substring_all.
  rewrite string_length_app. pose proof (setup_cgroup_path_length name).
  cbn. lia.
Qed.

Lemma cpu_max_path_eq name :
  cpu_max_path name = setup_cgroup_path name +:+ "/cpu.max".
Proof.
  unfold cpu_max_path, C.snprintf. apply substring_all.
  rewrite string_length_app. pose proof (setup_cgroup_path_length name).
  cbn. lia.
Qed.

Lemma memory_cpu_paths name :
  String.eqb (memory_max_path name) (cpu_max_path name) = false.
Proof.
  apply String.eqb_neq. rewrite memory_max_path_eq, cpu_max_path_eq.
  intros H%string_app_inv_head. discriminate.
Qed.

Lemma control_memory_paths name :
  String.eqb "/sys/fs/cgroup/cgroup.subtree_control" (memory_max_path name)
  = false.
Proof.
  apply String.eqb_neq. rewrite memory_max_path_eq, setup_cgroup_path_prefix.
  cbn. discriminate.
Qed.

Lemma control_cpu_paths name :
  String.eqb "/sys/fs/cgroup/cgroup.subtree_control" (cpu_max_path name)
  = false.
Proof.
  apply String.eqb_neq. rewrite cpu_max_path_eq, setup_cgroup_path_prefix.
  cbn. discriminate.
Qed.

Lemma cpu_memory_paths name :
  String.eqb (cpu_max_path name) (memory_max_path name) = false.
Proof. rewrite String.eqb_sym. apply memory_cpu_paths. Qed.

Lemma memory_control_paths name :
  String.eqb (memory_max_path name) "/sys/fs/cgroup/cgroup.subtree_control"
  = false.
Proof. rewrite String.eqb_sym. apply control_memory_paths. Qed.

Lemma cpu_control_paths name :
  String.eqb (cpu_max_path name) "/sys/fs/cgroup/cgroup.subtree_control"
  = false.
Proof. rewrite String.eqb_sym. apply control_cpu_paths. Qed.

(** A name that fits the three buffers names one directory for
    provisioning, for joining and for cleanup. *)
Lemma group_paths_agree name :
  (String.length name <= 232)%nat ->
  setup_cgroup_path name = "/sys/fs/cgroup/minirun-" +:+ name /\
  cleanup_cgroup_path name = setup_cgroup_path name /\
  cgroup_procs_path name = setup_cgroup_path name +:+ "/cgroup.procs".
Proof.
  intros Hn.
  assert (Hs : setup_cgroup_path name = "/sys/fs/cgroup/minirun-" +:+ name).
  { unfold setup_cgroup_path, C.snprintf. apply substring_all.
    rewrite string_length_app. cbn. lia. }
  rewrite Hs. split; [done|]. split.
  - unfold cleanup_cgroup_path, C.snprintf. apply substring_all.
    rewrite string_length_app. cbn. lia.
  - unfold cgroup_procs_path, C.snprintf.
    rewrite <- string_app_assoc. apply substring_all.
    rewrite !string_length_app. cbn. lia.
Qed.

Lemma wrap_int_small z : C.int_min <= z <= C.int_max -> C.wrap_int z = z.
Proof.
  unfold C.int_min, C.int_max, C.wrap_int. intros H.
  rewrite Z.mod_small; lia.
Qed.

Lemma digits_length fuel n acc :
  (String.length (C.digits fuel n acc) <= fuel + String.length acc)%nat.
Proof.
  revert n acc. induction fuel as [|fuel IH]; intros n acc; cbn; [lia|].
  destruct (n <? 10); cbn; [lia|].
  etrans; [apply IH|]. cbn. lia.
Qed.

Lemma fmt_d_length z : (String.length (C.fmt_d z) <= 21)%nat.
Proof.
  unfold C.fmt_d. destruct (z <? 0); cbn [String.length].
  - pose proof (digits_length 20 (- z) ""). cbn in *. lia.
  - pose proof (digits_length 20 z ""). cbn in *. lia.
Qed.

Lemma cpu_max_value_eq p :
  C.int_min <= p * 1000 <= C.int_max ->
  cpu_max_value p = C.fmt_d (p * 1000) +:+ " 100000".
Proof.
  intros Hp. unfold cpu_max_value, C.int_mul. rewrite (wrap_int_small _ Hp).
  unfold C.snprintf. change (C.fmt_d 100000) with "100000".
  apply substring_all. rewrite string_length_app.
  pose proof (fmt_d_length (p * 1000)). cbn. lia.
Qed.

End Paths.

(** ** Provisioning *)

Section Provisioned.

Import Runtime.

#[local] Arguments memory_max_path : simpl never.
#[local] Arguments cpu_max_path : simpl never.
#[local] Arguments setup_cgroup_path : simpl never.
#[local] Arguments cpu_max_value : simpl never.
#[local] Arguments write_cgroup_file : simpl never.
#[local] Arguments String.eqb : simpl never.
#[local] Arguments C.snprintf : simpl never.
#[local] Arguments C.fmt_d : simpl never.

Lemma mkdir_accepted m errno :
  negb (m =? 0) && negb (errno =? C.EEXIST) = false ->
  m = 0 \/ errno = C.EEXIST.
Proof.
  destruct (Z.eqb_spec m 0), (Z.eqb_spec errno C.EEXIST); cbn; auto.
  discriminate.
Qed.

Lemma provisioned_as name mem p m errno t0 r0 t1 r1 t2 r2
    (tr : list Event) (a : Z) :
  m = 0 \/ errno = C.EEXIST ->
  Written "/sys/fs/cgroup/cgroup.subtree_control" "+cpu +memory" t0 r0 ->
  Written (memory_max_path name) (C.snprintf 128 (C.fmt_d mem)) t1 r1 ->
  Written (cpu_max_path name) (cpu_max_value p) t2 r2 ->
  tr = ([ EvCall (Access "/sys/fs/cgroup/cgroup.controllers" C.F_OK) 0;
          EvCall (Mkdir (setup_cgroup_path name) C.mode_0755) (m, errno) ]
        ++ t0 ++ t1 ++ memory_complaint r1 ++ t2 ++ cpu_complaint r2
        ++ report name mem p (limits_applied r1 r2))%list ->
  a = limits_applied r1 r2 ->
  Provisioned name mem p tr a.
Proof. intros Hm H0 H1 H2 -> ->. by eapply provisioned_limits. Qed.

Ltac tidy :=
  rewrite ?String.eqb_refl, ?Nat.eqb_refl, ?memory_cpu_paths,
    ?control_memory_paths, ?control_cpu_paths, ?cpu_memory_paths,
    ?memory_control_paths, ?cpu_control_paths; cbn.

Lemma provisioned_observed name mem p tr a :
  Provisioned name mem p tr a ->
  a = (if provisioning_failed name tr then 0 else 1) /\
  rmdirs tr = [] /\
  (hierarchy_missing tr = true -> mkdirs tr = [] /\ a = 0) /\
  (forall m, mkdir_answers tr = [(m, C.EEXIST)] ->
             attempted (memory_max_path name) tr = true /\
             attempted (cpu_max_path name) tr = true) /\
  (forall v, In v (writes_to (cpu_max_path name) tr) -> v = cpu_max_value p) /\
  (opened (cpu_max_path name) tr = true ->
   writes_to (cpu_max_path name) tr = [cpu_max_value p]).
Proof.
  intros [a' Ha | m e Hm He
         | m e t0 r0 t1 r1 t2 r2 Hme [|f0 n0 c0] [|f1 n1 c1] [|f2 n2 c2]].
  3-10: assert (negb (m =? 0) && negb (e =? C.EEXIST) = false) as Hok
    by (destruct Hme as [-> | ->]; cbn; by rewrite ?andb_false_r).
  3-10: try destruct (n0 <? 0) eqn:E0; try destruct (n1 <? 0) eqn:E1;
    try destruct (n2 <? 0) eqn:E2.
  all: unfold provisioning_failed, hierarchy_missing, mkdir_failed, mkdirs,
    mkdir_answers, attempted, opened, writes_to, rmdirs; cbn;
    repeat (tidy; cbn); rewrite ?E1, ?E2, ?Hok; cbn.
  1: apply Z.eqb_neq in Ha; rewrite Ha; cbn.
  2: apply Z.eqb_neq in Hm, He; rewrite Hm, He; cbn.
  all: repeat split; intros; try done; try (intuition congruence).
  all: match goal with
       | H : [(_, _)] = [(_, _)] |- _ =>
           injection H as -> ->; by rewrite Z.eqb_refl in He
       end.
Qed.
End Provisioned.

Section Provisioning.

Import Runtime.

#[local] Arguments write_cgroup_file : simpl never.
#[local] Arguments setup_cgroup_path : simpl never.
#[local] Arguments memory_max_path : simpl never.
#[local] Arguments cpu_max_path : simpl never.
#[local] Arguments cpu_max_value : simpl never.
#[local] Arguments C.snprintf : simpl never.
#[local] Arguments C.fmt_d : simpl never.

Context {W : Type} (os : OS W).
Variable start : FnPtr -> ContainerConfig -> W -> (list Event * Outcome Z) * W.

Lemma write_cgroup_file_run who w path value :
  let r := run os start who (write_cgroup_file path value) w in
  exists a, Written path value (trace r) a /\ outcome r = Returned a /\
            spawned r = [].
Proof.
  unfold write_cgroup_file. explore; eexists; (split; [|done]);
    first [ constructor | idtac ];
    match goal with
    | E : (?n <? 0) = _
      |- Written _ _ [_; EvCall (Fprintf ?f _ _) ?n; EvCall _ ?c] _ =>
        pose proof (written_stream path value f n c) as H;
        by rewrite E in H
    end.
Qed.

Ltac finish_limits :=
  eapply provisioned_as; [by apply mkdir_accepted | eassumption ..| |];
  unfold memory_complaint, cpu_complaint, report, limits_applied;
  repeat match goal with
    | E : negb (?a =? 0) = _ |- context [negb (?a =? 0)] => rewrite E
    end;
  reflexivity.

Lemma setup_cgroups_run who w name mem p :
  let r := run os start who (setup_cgroups name mem p) w in
  exists a, Provisioned name mem p (trace r) a /\ outcome r = Returned a /\
            spawned r = [].
Proof.
  unfold setup_cgroups.
  repeat (explore;
          try (rewrite run_bind;
               match goal with
               | |- context [run os start who (write_cgroup_file ?pa ?v) ?w] =>
                   let a := fresh "a" in let Hw := fresh "Hw" in
                   let Ha := fresh "Ha" in let Hs := fresh "Hs" in
                   destruct (write_cgroup_file_run who w pa v)
                     as (a & Hw & Ha & Hs);
                   rewrite Ha
               end)).
  all: repeat match goal with
         | H : spawned _ = [] |- _ => rewrite H; clear H
         end.
  all: repeat match goal with
         | x : unit |- _ => destruct x
         | Ea : os_call _ _ (Access _ _) _ = (?x, _),
           E : negb (?x =? 0) = false |- _ =>
             apply negb_false_iff, Z.eqb_eq in E; subst x
         end.
  all: eexists; split; cycle 1; [split; reflexivity|].
  - numbers. by constructor.
  - apply andb_prop in E2 as [Hm He]. numbers. by constructor.
  - finish_limits.
  - finish_limits.
  - finish_limits.
  - finish_limits.
Qed.

End Provisioning.

(** ** The host *)

(** Where a path leads does not depend on the directories that are there;
    whether it leads anywhere does. *)
Lemma host_walk_lexical there stack names reached :
  Host.walk there stack names = Some reached ->
  Host.walk (fun _ => true) stack names = Some reached.
Proof.
  revert stack. induction names as [|n rest IH]; intros stack; cbn; [done|].
  repeat case_match; try done; apply IH.
Qed.

Lemma host_resolve_target who (h : Host.State) path p :
  Host.resolve who h path = Some p -> p = Host.target who h path.
Proof.
  unfold Host.resolve, Host.target, Host.clean.
  destruct (String.eqb path ""); [done|].
  destruct (Host.walk _ [] (Host.pieces [] path)) as [stack|] eqn:E; [|done].
  intros [= <-]. by rewrite (host_walk_lexical _ _ _ _ E).
Qed.

Lemma host_resolve_clean (h : Host.State) path p :
  Host.resolve Supervisor h path = Some p -> p = Host.clean path.
Proof. apply host_resolve_target. Qed.

(** No call but [rmdir] removes a directory. *)
Lemma host_call_keeps_dirs {X} who (c : Sys X) (h : Host.State) d :
  not_rmdir X c = true -> d ∈ Host.dirs h ->
  d ∈ Host.dirs (snd (Host.call who c h)).
Proof.
  intros Hc Hd. destruct c; try discriminate Hc; cbn;
    repeat case_match; cbn; try done.
  apply elem_of_union. by right.
Qed.

(** After a [mkdir] that succeeded or found the name taken, the directory
    is there, unless it was a file that had the name. *)
Lemma host_mkdir_present who path mode (h : Host.State) m errno h' :
  Host.call who (Mkdir path mode) h = ((m, errno), h') ->
  m = 0 \/ errno = C.EEXIST ->
  Host.target who h path ∉ dom (Host.files h) ->
  Host.target who h path ∈ Host.dirs h'.
Proof.
  cbn. destruct (Host.resolve who h path) as [p|] eqn:Hp.
  - apply host_resolve_target in Hp as <-.
    repeat case_bool_decide; cbn; intros [= <- <- <-] [|] Hf; try done.
    apply elem_of_union. left. by apply elem_of_singleton.
  - by intros [= <- <- <-] [|].
Qed.

Section HostGroup.

#[local] Arguments configure_limits : simpl never.
#[local] Arguments Host.call : simpl never.
#[local] Arguments hierarchy_missing : simpl never.
#[local] Arguments mkdir_failed : simpl never.

Lemma host_group_remains (h : Host.State) name mem p :
  let r := run_fn Host.os (Runtime.setup_cgroups name mem p) h in
  hierarchy_missing (trace r) = false ->
  mkdir_failed (trace r) = false ->
  Host.clean (Runtime.setup_cgroup_path name) ∉ dom (Host.files h) ->
  Host.clean (Runtime.setup_cgroup_path name) ∈ Host.dirs (world r).
Proof.
  unfold run_fn. rewrite setup_cgroups_parts.
  repeat (cbn;
          first [ match goal with
                  | |- context [Host.call ?who ?c ?h] =>
                      let E := fresh "E" in
                      destruct (Host.call who c h) as [? ?] eqn:E
                  end
                | branch ]).
  - unfold hierarchy_missing. cbn.
    match goal with E : negb _ = true |- _ => by rewrite E end.
  - unfold mkdir_failed. cbn.
    match goal with E : _ && _ = true |- _ => by rewrite E end.
  - intros _ _ Hf. apply (uses_invariant _ _ not_rmdir).
    + intros X c h'. apply host_call_keeps_dirs.
    + apply configure_limits_calls.
    + match goal with
      | E : Host.call _ (Access _ _) h = (_, ?h1) |- _ =>
          assert (h1 = h) as -> by
            (revert E; unfold Host.call; repeat case_match;
             by intros [= _ <-])
      end.
      eapply (host_mkdir_present Supervisor); [done | | done].
      by apply mkdir_accepted.
Qed.

End HostGroup.

(** ** The container process *)

Section Child.

Import Runtime.

#[local] Arguments cgroup_procs_path : simpl never.
#[local] Arguments C.snprintf : simpl never.
#[local] Arguments C.fmt_d : simpl never.

Lemma snprintf_fmt_d size z :
  (22 <= size)%nat -> C.snprintf size (C.fmt_d z) = C.fmt_d z.
Proof.
  intros Hs. unfold C.snprintf. apply substring_all.
  pose proof (fmt_d_length z). lia.
Qed.

(** Every run of [child_function], step by step: the join, the
    confinement, and the end of the process. *)
Lemma child_function_steps {W} (os : OS W) (w : W) config :
  let r := run_child os config w in
  spawned r = [] /\
  exists sent c d m e,
    steps (trace r) = (join_steps config sent ++ confine_steps config c d m e)%list /\
    outcome r = child_outcome config c e.
Proof.
  intros r. subst r. unfold run_child.
  over_runs (run os no_start Container (child_function config) w).
  unfold child_function.
  explore.
  all: intros ->; cbn; (split; [done|]); rewrite ?(snprintf_fmt_d 32) by lia.
  all: unfold join_steps, confine_steps, child_outcome.
  all: match goal with
       | |- context [Sent [ArgS (C.fmt_d ?pid)] ?n :: Closed ?c :: _] =>
           exists (Some (pid, n, c))
       | |- _ => exists None
       end.
  all: match goal with
       | |- context [Confine _ ?c :: Workdir _ ?d :: MountProc _ ?m
                       :: Exec _ _ ?e :: _] =>
           exists c, d, m, e
       | |- context [Confine _ ?c :: _] => exists c, 0, 0, None
       end.
  all: numbers; cbn;
    repeat match goal with
      | H : ?c <> 0 |- context [?c =? 0] =>
          apply Z.eqb_neq in H; rewrite H
      end; done.
Qed.

End Child.

Section HostShell.

Import Runtime.

Lemma host_resolve_same who who' (h h' : Host.State) path :
  Host.view who h = Host.view who' h' -> Host.dirs h = Host.dirs h' ->
  Host.resolve who h path = Host.resolve who' h' path.
Proof. unfold Host.resolve. by intros -> ->. Qed.

Lemma host_stream_calls {X} who (c : Sys X) (h : Host.State) :
  stream_calls X c = true ->
  Host.root (snd (Host.call who c h)) = Host.root h /\
  Host.setting (snd (Host.call who c h)) = Host.setting h /\
  Host.dirs (snd (Host.call who c h)) = Host.dirs h.
Proof.
  intros Hc. destruct c; try discriminate Hc; cbn; repeat case_match; done.
Qed.

(** Terminal output and the calls on streams are no [execl]. *)
Lemma stream_calls_no_exec tr path argv e :
  forallb (event_ok stream_calls false) tr = true ->
  ~ In (Exec path argv e) (steps tr).
Proof.
  induction tr as [|ev tr IH]; cbn; [tauto|].
  intros [Hev Htr]%andb_prop. unfold steps. cbn.
  destruct ev as [X c x| |]; try done.
  destruct c; try done; cbn; intros Hin; try (by apply IH);
    destruct Hin as [|Hin]; try done; by apply IH.
Qed.

(** The shell, as a process whose root is [p] finds it. *)
Lemma host_resolve_shell (h : Host.State) :
  Host.resolve Container h "/bin/bash"
  = Some (Host.inside (Host.root h) "/bin/bash").
Proof. reflexivity. Qed.

(** The container process on the host, from the state in which it
    starts: whether it can be confined, and whether its root holds the
    shell. *)
Lemma host_child (h : Host.State) config :
  Host.root h = "/" ->
  let r := run_child Host.os config h in
  let bash := ["bash"; "-c"; command config] in
  let confined := Host.privileged (Host.setting h)
                  && Host.is_dir h (rootfs_path config) in
  let shell := bool_decide (Host.inside (Host.clean (rootfs_path config))
                              "/bin/bash" ∈ Host.exes (Host.setting h)) in
  outcome r = (if confined && shell then Replaced "/bin/bash" bash
               else Returned 1) /\
  (confined = true ->
   In (Exec "/bin/bash" bash (if shell then None else Some (-1)))
     (steps (trace r))) /\
  (confined = false ->
   forall path argv e, ~ In (Exec path argv e) (steps (trace r))).
Proof.
  intros Hroot r bash confined shell. subst r bash confined shell.
  unfold run_child.
  rewrite child_function_parts, run_bind.
  destruct (straight_returns Host.os no_start stream_calls _ Container h
              (join_cgroup_calls config)) as [[[] Ha] _].
  rewrite Ha. cbn [outcome seq_run trace].
  pose proof (uses_invariant Host.os no_start stream_calls
                (fun h' => Host.root h' = "/" /\
                           Host.setting h' = Host.setting h /\
                           Host.dirs h' = Host.dirs h)
                (join_cgroup config) Container h) as Hinv.
  destruct Hinv as (Hr & Hs & Hd).
  { intros X c h' Hc (Hr & Hs & Hd).
    destruct (host_stream_calls Container c h' Hc) as (H1 & H2 & H3).
    repeat split; [by etrans; [exact H1|] | by etrans; [exact H2|]
                  | by etrans; [exact H3|]]. }
  { apply join_cgroup_calls. }
  { done. }
  assert (Hj : forall path argv e,
             ~ In (Exec path argv e)
                 (steps (trace (run Host.os no_start Container
                                  (join_cgroup config) h)))).
  { intros path argv e. apply stream_calls_no_exec.
    apply uses_trace, join_cgroup_calls. }
  revert Hj Hr Hs Hd.
  generalize (trace (run Host.os no_start Container (join_cgroup config) h)).
  generalize (world (run Host.os no_start Container (join_cgroup config) h)).
  intros h1 joined Hj Hr Hs Hd.
  unfold Host.is_dir.
  rewrite (host_resolve_same Supervisor Container h h1 (rootfs_path config));
    [| cbn; by rewrite Hr | by symmetry].
  unfold confine_and_exec, steps. cbn.
  destruct (Host.resolve Container h1 (rootfs_path config)) as [p|] eqn:Hp.
  2: { cbn. rewrite andb_false_r, omap_app. cbn.
       repeat split; try done. intros _ path argv e Hin.
       apply in_app_or in Hin as [Hin|[Hin|[]]]; [by apply Hj in Hin | done]. }
  pose proof (host_resolve_target _ _ _ _ Hp) as Hq.
  unfold Host.target in Hq. cbn in Hq. rewrite Hr in Hq. cbn in Hq.
  rewrite <- Hs, <- Hd, <- Hq.
  destruct (Host.privileged (Host.setting h1) && bool_decide (p ∈ Host.dirs h1))
    eqn:Hc; cbn.
  2: { rewrite omap_app. cbn. repeat split; try done.
       intros _ path argv e Hin.
       apply in_app_or in Hin as [Hin|[Hin|[]]]; [by apply Hj in Hin | done]. }
  destruct (bool_decide (Host.inside p "/bin/bash"
                           ∈ Host.exes (Host.setting h1))) eqn:Hb.
  all: unfold Host.resolve; cbn.
  all: repeat (cbn; first [ progress unfold Host.do_execl
                          | rewrite host_resolve_shell
                          | rewrite Hb
                          | branch ]).
  all: rewrite omap_app; cbn.
  all: repeat split; try done; intros _; apply in_or_app; right; cbn; tauto.
Qed.

(** On the host, a root without [/bin/bash] ends the container with 1. *)
Lemma host_no_shell (h : Host.State) config :
  Host.root h = "/" ->
  Host.inside (Host.clean (rootfs_path config)) "/bin/bash"
    ∉ Host.exes (Host.setting h) ->
  outcome (run_child Host.os config h) = Returned 1.
Proof.
  intros Hroot Hbash.
  destruct (host_child h config Hroot) as (Ho & _). cbn zeta in Ho.
  by rewrite Ho, (bool_decide_eq_false_2 _ Hbash), andb_false_r.
Qed.

End HostShell.

(** ** The supervisor *)

Section Supervisor.

Import Runtime.

#[local] Arguments setup_cgroups : simpl never.
#[local] Arguments run_child : simpl never.
#[local] Arguments cleanup_cgroup_path : simpl never.

(** Every run of [main] with its three arguments: the banner, the
    provisioning, a warning if it failed, and the launch. *)
Lemma main_cases {W} (os : OS W) (w : W) argc argv :
  4 <= argc ->
  let r := run_main os argc argv w in
  let config := main_config argv in
  exists w0 a tail,
    let s := run_fn os (setup_cgroups (name config) (memory_limit config)
                          (cpu_limit config)) w0 in
    Provisioned (name config) (memory_limit config) (cpu_limit config)
      (trace s) a /\
    trace r = (banner config ++ trace s ++ warning a ++ tail)%list /\
    Launch os config tail (outcome r) (spawned r).
Proof.
  intros Hargc r config. subst r config. unfold run_main, main.
  destruct (argc <? 4) eqn:E; [lia|].
  do 5 (cbn; answer). cbn.
  unfold mbind, prog_bind. rewrite run_bind.
  match goal with
  | |- context [run os ?st ?who (setup_cgroups ?n ?m ?p) ?w] =>
      destruct (setup_cgroups_run os st who w n m p) as (a & Hp & Ha & Hs);
      exists w, a
  end.
  unfold run_fn. rewrite Ha.
  explore.
  all: repeat match goal with x : unit |- _ => destruct x end.
  all: rewrite Hs; cbn.
  all: eexists; split; [exact Hp|].
  all: unfold warning;
    match goal with E : (_ =? 0) = _ |- _ => rewrite E end; cbn.
  all: split; [reflexivity|].
  all: constructor.
Qed.

End Supervisor.

(** ** Observations *)

Section Observations.

Import Runtime.

(** The observations on events, read off the steps. *)
Lemma confinement_failed_steps tr :
  confinement_failed tr =
  existsb (fun s => match s with
                    | Confine _ c => negb (c =? 0)
                    | _ => false
                    end) (steps tr).
Proof.
  unfold confinement_failed, steps.
  induction tr as [|e tr IH]; [done|]. cbn. rewrite IH.
  destruct e as [X c x| |]; [destruct c|..]; cbn; done.
Qed.

Lemma exec_refused_steps tr :
  exec_refused tr =
  existsb (fun s => match s with
                    | Exec _ _ (Some _) => true
                    | _ => false
                    end) (steps tr).
Proof.
  unfold exec_refused, steps.
  induction tr as [|e tr IH]; [done|]. cbn. rewrite IH.
  destruct e as [X c x| |p a [r|]]; [destruct c|..]; cbn; done.
Qed.

(** The fate of the container process, from what [chroot] and [execl]
    answered. *)
Lemma child_function_outcome {W} (os : OS W) (w : W) config :
  outcome (run_child os config w) =
  if confinement_failed (trace (run_child os config w))
     || exec_refused (trace (run_child os config w))
  then Returned 1
  else Replaced "/bin/bash" ["bash"; "-c"; command config].
Proof.
  rewrite confinement_failed_steps, exec_refused_steps.
  destruct (child_function_steps os w config)
    as (_ & sent & c & d & m & e & Hs & Ho).
  rewrite Hs, Ho, !existsb_app.
  unfold join_steps, confine_steps, child_outcome.
  destruct sent as [[[pid n] c']|], (c =? 0) eqn:Hc; cbn; rewrite ?Hc;
    by destruct e.
Qed.

End Observations.

Section Launching.

Import Runtime.

#[local] Arguments setup_cgroups : simpl never.
#[local] Arguments run_child : simpl never.
#[local] Arguments cleanup_cgroup_path : simpl never.

(** Fewer than three arguments: the usage text, and 1. *)
Lemma main_usage {W} (os : OS W) (w : W) argc argv :
  argc < 4 ->
  let r := run_main os argc argv w in
  trace r =
    [ EvCall (Eprintf "Usage: %s <name> <rootfs_path> <command>\n"
                [ArgS (arg argv 0)]) tt;
      EvCall (Eprintf "Example: %s myapp /path/to/myroot /bin/bash\n"
                [ArgS (arg argv 0)]) tt ] /\
  outcome r = Returned 1 /\ spawned r = [].
Proof.
  intros Hargc r. subst r. unfold run_main, main.
  destruct (argc <? 4) eqn:E; [|lia].
  explore. numbers. done.
Qed.

(** The launch, observed. *)
Lemma launch_observed {W} (os : OS W) config tail o kids :
  Launch os config tail o kids ->
  rmdirs tail = [cleanup_cgroup_path (name config)] /\
  (exists x, last tail =
             Some (EvCall (Rmdir (cleanup_cgroup_path (name config))) x)) /\
  mkdirs tail = [] /\ hierarchy_missing tail = false /\
  (exists code, o = Returned code).
Proof. intros []; cbn; eauto 10. Qed.

Lemma banner_observed config :
  rmdirs (banner config) = [] /\ mkdirs (banner config) = [] /\
  hierarchy_missing (banner config) = false /\
  mallocs (banner config) = [] /\ clones (banner config) = [] /\
  waits (banner config) = [].
Proof. done. Qed.

Lemma warning_observed a :
  rmdirs (warning a) = [] /\ mkdirs (warning a) = [] /\
  hierarchy_missing (warning a) = false /\
  mallocs (warning a) = [] /\ clones (warning a) = [] /\
  waits (warning a) = [].
Proof. unfold warning. by destruct (a =? 0). Qed.

End Launching.

(** Where [rmdir] comes last, its answer does not reach the result. *)
Lemma cleanup_last_outcome {W A} (os : OS W) f start start' who
    (p : Prog A) w :
  (forall fn arg w, start' fn arg w = start fn arg w) ->
  cleanup_last p ->
  outcome (run (with_rmdir f os) start' who p w) =
  outcome (run os start who p w) /\
  spawned (run (with_rmdir f os) start' who p w) =
  spawned (run os start who p w).
Proof.
  intros Hst Hp. revert w.
  induction Hp as [a | X c k Hc _ IH | path k a Hk | fn st fl arg k _ IH
                  | path argv k _ IH]; intros w; cbn.
  - done.
  - destruct c; try discriminate Hc; cbn;
      match goal with
      | |- context [os_call os who ?c w] =>
          destruct (os_call os who c w) as [x w1]; cbn;
          destruct (IH x w1) as [-> ->]; done
      end.
  - destruct (f who path w) as [x w1], (os_call os who (Rmdir path) w)
      as [x' w1']. by rewrite !Hk.
  - destruct (os_clone os fl w) as [[pid|] w1].
    + rewrite Hst. destruct (start fn arg w1) as [child w2]. cbn.
      destruct (IH (Z.pos pid) w2) as [-> ->]. done.
    + cbn. destruct (IH (-1) w1) as [-> ->]. done.
  - destruct (os_execl os who path argv w) as [[r|] w1]; [|done]. cbn.
    destruct (IH r w1) as [-> ->]. done.
Qed.

Lemma main_cleanup_last argc argv : cleanup_last (Runtime.main argc argv).
Proof.
  unfold Runtime.main, Runtime.setup_cgroups, Runtime.write_cgroup_file,
    Runtime.cleanup_cgroups.
  repeat first
    [ progress cbn
    | progress unfold mbind, prog_bind, mret, prog_ret, call, clone, execl
    | match goal with
      | |- forall _, _ => intro
      | |- cleanup_last (Ret _) => apply cleanup_last_ret
      | |- cleanup_last (Vis (Rmdir _) _) =>
          eapply cleanup_last_rmdir; intros [? ?]; cbn;
          match goal with
          | |- context [if ?b then _ else _] => by destruct b
          end
      | |- cleanup_last (Vis _ _) => apply cleanup_last_vis; [reflexivity|]
      | |- cleanup_last (Clone _ _ _ _ _) => apply cleanup_last_clone
      | |- cleanup_last (Execl _ _ _) => apply cleanup_last_execl
      | |- cleanup_last (match ?x with _ => _ end) => destruct x
      | |- cleanup_last (bind (match ?x with _ => _ end) _) => destruct x
      | |- cleanup_last (bind (bind (match ?x with _ => _ end) _) _) =>
          destruct x
      end ].
Qed.

Lemma start_child_with_rmdir {W} (os : OS W) f fn arg w :
  start_child (with_rmdir f os) fn arg w = start_child os fn arg w.
Proof.
  destruct fn. unfold start_child, run_child.
  by rewrite (run_with_rmdir os f no_start no_start true Container _ w
                (fun _ _ _ => eq_refl) (child_function_calls arg)).
Qed.

(** * The claims *)

Section Claims.

Import Runtime.

#[local] Arguments run_child : simpl never.
#[local] Arguments cleanup_cgroup_path : simpl never.

(** ** C1: the exit status of the supervisor *)




(** ** C2: cleanup on every path *)

(** C2: in every run of [main] that reaches provisioning (three
    arguments or more), whether [malloc] fails, [clone] fails or the
    container ends, the supervisor calls [rmdir] on the directory of the
    group exactly once, as its last call, and then returns; the container
    process never calls it. *)
Theorem cleanup_exactly_once {W} (os : OS W) (w : W) argc argv :
  4 <= argc ->
  let r := run_main os argc argv w in
  rmdirs (trace r) = [cleanup_cgroup_path (arg argv 1)] /\
  (exists x, last (trace r) =
             Some (EvCall (Rmdir (cleanup_cgroup_path (arg argv 1))) x)) /\
  (exists code, outcome r = Returned code) /\
  (forall pid tr o, In (pid, (tr, o)) (spawned r) -> rmdirs tr = []).
Proof.
  intros Hargc r. subst r.
  destruct (main_cases os w argc argv Hargc) as (w0 & a & tail & Hp & Htr & Hl).
  cbn zeta in *. rewrite Htr.
  set (s := run_fn os _ w0) in *. set (config := main_config argv) in *.
  apply provisioned_observed in Hp as (_ & Hrm & _).
  destruct (warning_observed a) as (Hrw & _).
  destruct (launch_observed os config tail _ _ Hl) as (Hrl & Hlast & _ & _ & Ho).
  unfold rmdirs in *. rewrite !omap_app, Hrm, Hrw, Hrl, !last_app.
  destruct Hlast as [x ->].
  repeat split; eauto.
  intros pid tr o Hin.
  destruct Hl as [| |stack pid' w' status x']; cbn in Hin; try done.
  destruct Hin as [[= <- <- <-]|[]].
  apply (omap_none_of _ (event_ok not_rmdir true)).
  - intros [X c y| |]; try done. by destruct c.
  - apply uses_trace, child_function_calls.
Qed.

(** An invocation on the host removes the group [t1] once. *)
Lemma cleanup_exactly_once_witness :
  4 <= 4 /\
  rmdirs (trace (run_main Host.os 4 t1 Host.linux))
  = ["/sys/fs/cgroup/minirun-t1"].
Proof.
  split; [lia|].
  apply (cleanup_exactly_once Host.os Host.linux 4 t1). lia.
Defined.

(** ** C3: the CPU quota and period *)

(** C3: provisioning writes to the [cpu.max] file of the group the text
    ["<quota> <period>"], where the quota is [p * 1000] and the period is
    100000: nothing else is ever written to that file, the text is written
    whenever the file could be opened, and for 50 and 100 percent the text
    is ["50000 100000"] and ["100000 100000"].  [p * 1000] is computed in
    [int]. *)
Theorem cpu_max_quota_period {W} (os : OS W) (w : W) name mem p :
  C.int_min <= p * 1000 <= C.int_max ->
  let tr := trace (run_fn os (setup_cgroups name mem p) w) in
  let text := C.fmt_d (p * 1000) +:+ " " +:+ C.fmt_d 100000 in
  (forall v, In v (writes_to (cpu_max_path name) tr) -> v = text) /\
  (opened (cpu_max_path name) tr = true ->
   writes_to (cpu_max_path name) tr = [text]) /\
  cpu_max_value 50 = "50000 100000" /\
  cpu_max_value 100 = "100000 100000".
Proof.
  intros Hp tr text.
  destruct (setup_cgroups_run os (start_child os) Supervisor w name mem p)
    as (a & Hrun & _).
  apply provisioned_observed in Hrun as (_ & _ & _ & _ & Hv & Ho).
  rewrite (cpu_max_value_eq p Hp) in Hv, Ho.
  repeat split; try done.
Qed.

(** For 50 percent on the host, the file receives [50000 100000]. *)
Lemma cpu_max_quota_period_witness :
  C.int_min <= 50 * 1000 <= C.int_max /\
  writes_to (cpu_max_path "t1")
    (trace (run_fn Host.os (setup_cgroups "t1" (64 * 1024 * 1024) 50)
              Host.linux))
  = ["50000 100000"].
Proof.
  split; [unfold C.int_min, C.int_max; lia|].
  apply (cpu_max_quota_period Host.os Host.linux "t1" (64 * 1024 * 1024) 50).
  - unfold C.int_min, C.int_max; lia.
  - vm_compute. reflexivity.
Defined.

(** ** C4: the degraded mode *)



(** ** C5: reuse of the group and failed writes *)

(** What [setup_cgroups] does of it: when [mkdir] fails because the
    directory exists, it goes on to write both limits; when
    [write_cgroup_file] reports that the memory limit or the CPU limit was
    not written (the stream was refused, or [fprintf] answered a negative
    number), it returns 0; it never removes the directory: on the host the
    directory of the group is there afterwards whenever it was created or
    found, and for a name that fits the buffers it is the directory the
    container joins and the supervisor removes. *)
Lemma provision_reuses_and_degrades {W} (os : OS W) (w : W) name mem p :
  let r := run_fn os (setup_cgroups name mem p) w in
  (forall m, mkdir_answers (trace r) = [(m, C.EEXIST)] ->
             attempted (memory_max_path name) (trace r) = true /\
             attempted (cpu_max_path name) (trace r) = true) /\
  (write_failed (memory_max_path name) (trace r) = true \/
   write_failed (cpu_max_path name) (trace r) = true ->
   outcome r = Returned 0) /\
  rmdirs (trace r) = [] /\
  (forall h : Host.State,
     let r := run_fn Host.os (setup_cgroups name mem p) h in
     hierarchy_missing (trace r) = false ->
     mkdir_failed (trace r) = false ->
     Host.clean (setup_cgroup_path name) ∉ dom (Host.files h) ->
     Host.clean (setup_cgroup_path name) ∈ Host.dirs (world r)) /\
  ((String.length name <= 232)%nat ->
   cleanup_cgroup_path name = setup_cgroup_path name /\
   cgroup_procs_path name = setup_cgroup_path name +:+ "/cgroup.procs").
Proof.
  intros r.
  destruct (setup_cgroups_run os (start_child os) Supervisor w name mem p)
    as (a & Hrun & Ha & _).
  apply provisioned_observed in Hrun as (Hres & Hrm & _ & Hre & _ & _).
  subst r. unfold run_fn.
  split; [exact Hre|]. split; [|split; [done|split]].
  2: intros h; apply host_group_remains.
  2: intros Hn; by destruct (group_paths_agree name Hn) as (_ & ? & ?).
  intros Hf. rewrite Ha, Hres. unfold provisioning_failed.
  destruct Hf as [-> | ->]; by rewrite ?orb_true_r.
Qed.

(** C5, where the source departs from it.  The text of a limit reaches the
    kernel when the stream is closed, and [write_cgroup_file] does not read
    what [fclose] answers: on a host whose kernel does not take a quota of 0,
    [setup_cgroups] for 0 percent sends [0 100000] to [cpu.max], [fclose]
    answers -1, the file does not hold the text, and [setup_cgroups] prints
    its confirmation and returns 1.  The name is the second way: for a name
    of 240 bytes the directory is created under the name cut to the buffer
    of [setup_cgroups], the container process finds no membership file under
    the name it builds, [rmdir] of the name [cleanup_cgroups] builds
    answers that there is no such directory, and the directory created is
    left. *)
Theorem refused_write_counts_as_written :
  (let r := run_fn Host.os (setup_cgroups "t1" 1024 0) Host.strict in
   writes_to (cpu_max_path "t1") (trace r) = ["0 100000"] /\
   In (EvCall (Fclose 1%nat) (-1)) (trace r) /\
   Host.files (world r) !! cpu_max_path "t1" = Some "" /\
   printed "✓ Resource limits configured:\n" (trace r) = true /\
   outcome r = Returned 1) /\
  (let argv := ["minirun"; long_name; "/srv/rootfs"; "/bin/true"] in
   let r := run_main Host.os 4 argv Host.linux in
   mkdir_answers (trace r) = [(0, 0)] /\
   map (fun kid => opened (cgroup_procs_path long_name) (fst (snd kid)))
     (spawned r) = [false] /\
   omap (fun e => match e with
                  | EvCall (Rmdir _) x => Some x
                  | _ => None
                  end) (trace r) = [(-1, C.ENOENT)] /\
   Host.is_dir (world r) (setup_cgroup_path long_name) = true).
Proof.
  split; vm_compute; repeat split; try reflexivity.
  do 10 right. left. reflexivity.
Qed.

(** ** C6: the order of the steps in the container *)

(** C6, and where the source departs from it.  In every run of the
    container process the steps come in one order: the membership file is
    asked for and, when it could be opened, the pid is sent to it and the
    stream is closed; then comes [chroot]; then, only when [chroot]
    returned 0, the change of directory, the mount of [/proc] and the
    shell, in this order, with nothing between them.  No step of the join
    follows [chroot], and nothing follows a refused [chroot].  But what
    [chdir] answered is not read: in the second run [chroot] returns 0,
    [chdir] returns -1, so that the confinement did not succeed, and
    [/proc] is mounted and the shell is executed all the same. *)
Theorem child_steps_and_failed_chdir :
  (forall W (os : OS W) w config,
     exists sent c d m e,
       steps (trace (run_child os config w))
       = (join_steps config sent ++ confine_steps config c d m e)%list) /\
  steps (trace (run_child (with_failing_chdir Host.os) t1_config Host.stale))
  = [ Join "/sys/fs/cgroup/minirun-t1/cgroup.procs";
      Sent [ArgS "4243"] 4; Closed 0;
      Confine "/srv/rootfs" 0;
      Workdir "/" (-1);
      MountProc "/proc" 0;
      Exec "/bin/bash" ["bash"; "-c"; "/bin/true"] None ].
Proof.
  split.
  - intros W os w config.
    destruct (child_function_steps os w config)
      as (_ & sent & c & d & m & e & Hs & _).
    by exists sent, c, d, m, e.
  - by vm_compute.
Qed.

(** ** C7: a failed change of directory *)

(** A refused [chroot] ends the entry point with 1, and [execl] is not
    reached. *)
Lemma refused_chroot_is_fatal {W} (os : OS W) (w : W) config :
  let r := run_child os config w in
  confinement_failed (trace r) = true ->
  outcome r = Returned 1 /\
  forall path argv e, ~ In (Exec path argv e) (steps (trace r)).
Proof.
  intros r Hc. subst r. split.
  - pose proof (child_function_outcome os w config) as Ho.
    cbn zeta in Ho. by rewrite Ho, Hc.
  - rewrite confinement_failed_steps in Hc.
    destruct (child_function_steps os w config)
      as (_ & sent & c & d & m & e' & Hs & _).
    rewrite Hs in *. rewrite existsb_app in Hc.
    unfold join_steps, confine_steps in *.
    destruct sent as [[[pid n] c']|], (c =? 0) eqn:Ec; cbn in Hc;
      rewrite ?Ec in Hc; try done.
    all: intros path argv e Hin; cbn in Hin; intuition congruence.
Qed.

(** C7, where the source departs from it: [chroot] succeeds and
    [chdir("/")] fails, and the entry point goes on to mount [/proc] and to
    execute the shell instead of returning a failure status. *)
Theorem failed_chdir_is_ignored :
  let r := run_main (with_failing_chdir Host.os) 4 t1 Host.linux in
  map (fun kid => (fst kid, steps (fst (snd kid)), snd (snd kid))) (spawned r)
  = [ (4243%positive,
       [ Join "/sys/fs/cgroup/minirun-t1/cgroup.procs";
         Sent [ArgS "1"] 1; Closed 0;
         Confine "/srv/rootfs" 0;
         Workdir "/" (-1);
         MountProc "/proc" 0;
         Exec "/bin/bash" ["bash"; "-c"; "/bin/true"] None ],
       Replaced "/bin/bash" ["bash"; "-c"; "/bin/true"]) ] /\
  outcome r = Returned 0.
Proof. by vm_compute. Qed.

(** ** C8: cleanup is idempotent and never fatal *)

(** [cleanup_cgroups] on the host. *)
Lemma host_cleanup (h : Host.State) name :
  let p := cleanup_cgroup_path name in
  let h' := world (run_fn Host.os (cleanup_cgroups name) h) in
  (Host.is_dir h p = false -> h' = h) /\
  (Host.is_dir h p = true -> Host.kept h p = false ->
   Host.is_dir h' p = false) /\
  (Host.is_dir h p = true -> Host.kept h p = true -> h' = h).
Proof.
  intros p h'. subst h'. unfold run_fn, cleanup_cgroups. cbn. fold p.
  unfold Host.is_dir, Host.kept, Host.dotted.
  destruct (Host.resolve Supervisor h p) as [q|] eqn:Hq; cbn; [|done].
  apply host_resolve_clean in Hq. rewrite <- Hq.
  destruct (bool_decide (q ∈ Host.dirs h)) eqn:Hin; cbn;
    [|by destruct (bool_decide (q ∈ dom (Host.files h)))].
  destruct (String.eqb (Host.last_piece p) ".") eqn:E1,
    (String.eqb (Host.last_piece p) "..") eqn:E2,
    (bool_decide (q ∈ Host.busy (Host.setting h))) eqn:Hb; cbn;
    repeat split; try done.
  intros _ _.
  match goal with
  | |- context [Host.resolve Supervisor ?h1 p] =>
      destruct (Host.resolve Supervisor h1 p) as [q'|] eqn:Hq'; [|done]
  end.
  apply host_resolve_clean in Hq'. rewrite <- Hq in Hq'. subst q'.
  apply bool_decide_eq_false. cbn. apply not_elem_of_difference. right.
  by apply elem_of_singleton.
Qed.

(** C8: on the host, [cleanup_cgroups] leaves everything as it is when the
    directory of the group is not there, and calling it a second time
    changes nothing; whatever [rmdir] answers, [cleanup_cgroups] returns
    normally and the result of [main] is the same. *)
Theorem cleanup_idempotent_never_fatal :
  (forall (h : Host.State) name,
     Host.is_dir h (cleanup_cgroup_path name) = false ->
     world (run_fn Host.os (cleanup_cgroups name) h) = h) /\
  (forall (h : Host.State) name,
     let once := world (run_fn Host.os (cleanup_cgroups name) h) in
     world (run_fn Host.os (cleanup_cgroups name) once) = once) /\
  (forall W (os : OS W) w name,
     outcome (run_fn os (cleanup_cgroups name) w) = Returned tt) /\
  (forall W (os : OS W) f w argc argv,
     outcome (run_main (with_rmdir f os) argc argv w) =
     outcome (run_main os argc argv w)).
Proof.
  repeat split.
  - intros h name Hp.
    destruct (host_cleanup h name) as (Habsent & _). by apply Habsent.
  - intros h name once. subst once.
    destruct (host_cleanup h name) as (Habsent & Hgone & Hkept).
    destruct (Host.is_dir h (cleanup_cgroup_path name)) eqn:Hin.
    + destruct (Host.kept h (cleanup_cgroup_path name)) eqn:Hk.
      * rewrite (Hkept eq_refl eq_refl). by apply Hkept.
      * destruct (host_cleanup
                    (world (run_fn Host.os (cleanup_cgroups name) h)) name)
          as (Habsent' & _).
        apply Habsent'. by apply Hgone.
    + rewrite (Habsent eq_refl). by apply Habsent.
  - intros W os w name. unfold run_fn, cleanup_cgroups. explore; done.
  - intros W os f w argc argv. unfold run_main.
    apply (cleanup_last_outcome os f).
    + intros fn arg w'. apply start_child_with_rmdir.
    + apply main_cleanup_last.
Qed.

(** Cleanup of a group that was never created. *)
Lemma cleanup_idempotent_never_fatal_witness :
  Host.is_dir Host.linux (cleanup_cgroup_path "t1") = false /\
  world (run_fn Host.os (cleanup_cgroups "t1") Host.linux) = Host.linux.
Proof.
  assert (H : Host.is_dir Host.linux (cleanup_cgroup_path "t1") = false)
    by (vm_compute; reflexivity).
  split; [exact H|].
  destruct cleanup_idempotent_never_fatal as [Hnoop _]. by apply Hnoop.
Defined.

(** ** C9: configuration errors *)




(** ** C10: the command is run by the shell of the root *)

(** C10: the container process executes nothing but [/bin/bash] with the
    arguments [bash -c command], and only after [chroot] to its root
    succeeded; and whenever [chroot] to its root succeeded it does execute
    it, as its last step: it becomes the shell when [execl] does not return,
    and returns 1 when it does.  On the host the shell is looked up inside
    the root: a container that can be confined is replaced by [bash -c
    command] when the root holds [/bin/bash], and when the root holds none
    [execl] is called, fails, and the container ends with status 1, whatever
    [command] names. *)
Theorem exec_through_bash :
  (forall W (os : OS W) w config path argv e,
     let r := run_child os config w in
     In (Exec path argv e) (steps (trace r)) ->
     path = "/bin/bash" /\ argv = ["bash"; "-c"; command config] /\
     In (Confine (rootfs_path config) 0) (steps (trace r))) /\
  (forall W (os : OS W) w config,
     let r := run_child os config w in
     In (Confine (rootfs_path config) 0) (steps (trace r)) ->
     exists e,
       last (steps (trace r))
       = Some (Exec "/bin/bash" ["bash"; "-c"; command config] e) /\
       outcome r = match e with
                   | None => Replaced "/bin/bash" ["bash"; "-c"; command config]
                   | Some _ => Returned 1
                   end) /\
  (forall (h : Host.State) config,
     Host.root h = "/" ->
     Host.inside (Host.clean (rootfs_path config)) "/bin/bash"
       ∉ Host.exes (Host.setting h) ->
     outcome (run_child Host.os config h) = Returned 1) /\
  (forall (h : Host.State) config,
     Host.root h = "/" ->
     Host.privileged (Host.setting h) = true ->
     Host.is_dir h (rootfs_path config) = true ->
     let r := run_child Host.os config h in
     let shell := bool_decide (Host.inside (Host.clean (rootfs_path config))
                                 "/bin/bash" ∈ Host.exes (Host.setting h)) in
     In (Exec "/bin/bash" ["bash"; "-c"; command config]
           (if shell then None else Some (-1))) (steps (trace r)) /\
     outcome r = if shell
                 then Replaced "/bin/bash" ["bash"; "-c"; command config]
                 else Returned 1).
Proof.
  split; [|split; [|split]].
  - intros W os w config path argv e r. subst r.
    destruct (child_function_steps os w config)
      as (_ & sent & c & d & m & e' & Hs & _).
    rewrite Hs. unfold join_steps, confine_steps.
    destruct sent as [[[pid n] c']|], (c =? 0) eqn:Ec; cbn;
      intros Hin; try (apply Z.eqb_eq in Ec as ->);
      intuition (try congruence).
    all: match goal with H : Exec _ _ _ = Exec _ _ _ |- _ =>
           injection H as <- <- <- end; auto.
  - intros W os w config r. subst r.
    destruct (child_function_steps os w config)
      as (_ & sent & c & d & m & e & Hs & Ho).
    rewrite Hs, Ho. unfold join_steps, confine_steps, child_outcome.
    destruct sent as [[[pid n] c']|], (c =? 0) eqn:Ec; cbn;
      intros Hin; try (exists e; by split).
    all: apply Z.eqb_neq in Ec; intuition congruence.
  - apply host_no_shell.
  - intros h config Hroot Hpriv Hdir r shell. subst r shell.
    destruct (host_child h config Hroot) as (Ho & Hexec & _).
    cbn zeta in Ho, Hexec. rewrite Hpriv, Hdir in Ho, Hexec. cbn in Ho, Hexec.
    split; [by apply Hexec | exact Ho].
Qed.

(** On a host whose root file system holds [/bin/true] and no shell, the
    command [/bin/true] is not run: [execl] of the shell is called and
    fails; where the shell is there, the container becomes it. *)
Lemma exec_through_bash_witness :
  Host.root Host.no_shell = "/" /\
  Host.privileged (Host.setting Host.no_shell) = true /\
  Host.is_dir Host.no_shell "/srv/rootfs" = true /\
  (Host.inside (Host.clean "/srv/rootfs") "/bin/bash"
     ∉ Host.exes (Host.setting Host.no_shell)) /\
  (Host.inside (Host.clean "/srv/rootfs") "/bin/true"
     ∈ Host.exes (Host.setting Host.no_shell)) /\
  In (Exec "/bin/bash" ["bash"; "-c"; "/bin/true"] (Some (-1)))
    (steps (trace (run_child Host.os t1_config Host.no_shell))) /\
  outcome (run_child Host.os t1_config Host.no_shell) = Returned 1 /\
  outcome (run_child Host.os t1_config Host.linux)
  = Replaced "/bin/bash" ["bash"; "-c"; "/bin/true"].
Proof.
  assert (H : Host.inside (Host.clean "/srv/rootfs") "/bin/bash"
                ∉ Host.exes (Host.setting Host.no_shell)).
  { apply (bool_decide_unpack _). vm_compute. exact I. }
  assert (Hd : Host.is_dir Host.no_shell "/srv/rootfs" = true)
    by (vm_compute; reflexivity).
  assert (Hl : Host.is_dir Host.linux "/srv/rootfs" = true)
    by (vm_compute; reflexivity).
  destruct exec_through_bash as (_ & _ & Hnone & Hhost).
  destruct (Hhost Host.no_shell t1_config eq_refl eq_refl Hd) as [Hin Ho].
  destruct (Hhost Host.linux t1_config eq_refl eq_refl Hl) as [_ Ho'].
  change (rootfs_path t1_config) with "/srv/rootfs" in Hin, Ho.
  change (command t1_config) with "/bin/true" in Hin, Ho, Ho'.
  rewrite (bool_decide_eq_false_2 _ H) in Hin, Ho.
  split; [reflexivity|]. split; [reflexivity|]. split; [exact Hd|].
  split; [exact H|]. split.
  { apply (bool_decide_unpack _). vm_compute. exact I. }
  split; [exact Hin|]. split; [exact Ho|].
  etrans; [exact Ho'|]. vm_compute. reflexivity.
Defined.

End Claims.

(** * Further properties *)

(** ** Provisioning, further *)

Section MoreProvisioning.

Import Runtime.

#[local] Arguments memory_max_path : simpl never.
#[local] Arguments cpu_max_path : simpl never.
#[local] Arguments setup_cgroup_path : simpl never.
#[local] Arguments cpu_max_value : simpl never.
#[local] Arguments String.eqb : simpl never.
#[local] Arguments C.snprintf : simpl never.
#[local] Arguments C.fmt_d : simpl never.

Lemma open_streams_app open t1 t2 :
  open_streams open (t1 ++ t2) = open_streams (open_streams open t1) t2.
Proof.
  revert open. induction t1 as [|e t1 IH]; intros open; [done|].
  destruct e as [X c x| |]; [destruct c|..]; cbn; try apply IH.
  destruct x; apply IH.
Qed.

Ltac tidy :=
  rewrite ?String.eqb_refl, ?Nat.eqb_refl, ?memory_cpu_paths,
    ?control_memory_paths, ?control_cpu_paths, ?cpu_memory_paths,
    ?memory_control_paths, ?cpu_control_paths; cbn.

(** What else the three ways of [setup_cgroups] show. *)
Lemma provisioned_further name mem p tr a :
  Provisioned name mem p tr a ->
  printed "✓ Resource limits configured:\n" tr
  = negb (provisioning_failed name tr) /\
  fopens tr
  = (if hierarchy_missing tr || mkdir_failed tr then []
     else [ "/sys/fs/cgroup/cgroup.subtree_control";
            memory_max_path name; cpu_max_path name ]) /\
  (forall v, In v (writes_to (memory_max_path name) tr) ->
             v = C.snprintf 128 (C.fmt_d mem)) /\
  (opened (memory_max_path name) tr = true ->
   writes_to (memory_max_path name) tr = [C.snprintf 128 (C.fmt_d mem)]) /\
  open_streams [] tr = [].
Proof.
  intros [a' Ha | m e Hm He
         | m e t0 r0 t1 r1 t2 r2 Hme [|f0 n0 c0] [|f1 n1 c1] [|f2 n2 c2]].
  3-10: assert (negb (m =? 0) && negb (e =? C.EEXIST) = false) as Hok
    by (destruct Hme as [-> | ->]; cbn; by rewrite ?andb_false_r).
  3-10: try destruct (n0 <? 0) eqn:E0; try destruct (n1 <? 0) eqn:E1;
    try destruct (n2 <? 0) eqn:E2.
  all: unfold provisioning_failed, hierarchy_missing, mkdir_failed, printed,
    fopens, opened, writes_to; cbn;
    repeat (tidy; cbn); rewrite ?E1, ?E2, ?Hok; cbn.
  1: apply Z.eqb_neq in Ha; rewrite Ha; cbn.
  2: apply Z.eqb_neq in Hm, He; rewrite Hm, He; cbn.
  all: repeat split; intros; try done; try (intuition congruence).
Qed.

End MoreProvisioning.

(** ** The container process, further *)

Section MoreChild.

Import Runtime.

#[local] Arguments cgroup_procs_path : simpl never.
#[local] Arguments C.snprintf : simpl never.
#[local] Arguments C.fmt_d : simpl never.
#[local] Arguments String.eqb : simpl never.

(** What else every run of [child_function] shows. *)
Lemma child_function_observed {W} (os : OS W) (w : W) config :
  let tr := trace (run_child os config w) in
  let procs := cgroup_procs_path (name config) in
  (exists pid pid',
     getpids tr = [pid; pid'] /\
     In (EvCall (Printf "PID: %d\n" [ArgD pid]) tt) tr /\
     (forall v, In v (writes_to procs tr) -> v = C.fmt_d pid') /\
     (opened procs tr = true -> writes_to procs tr = [C.fmt_d pid'])) /\
  fopens tr = [procs] /\
  open_streams [] tr = [] /\
  forallb (fun e => negb (managing e)) tr = true.
Proof.
  intros tr procs. subst tr procs. unfold run_child.
  over_runs (run os no_start Container (child_function config) w).
  unfold child_function.
  explore.
  all: intros ->; cbn; numbers.
  all: unfold writes_to, opened; cbn; rewrite ?String.eqb_refl, ?Nat.eqb_refl;
    cbn; rewrite ?String.eqb_refl; cbn;
    rewrite ?(snprintf_fmt_d 32) by lia.
  all: (split; [do 2 eexists; split; [reflexivity|]; split; [tauto|];
                split; intros; try done; intuition congruence
               | done]).
Qed.

End MoreChild.

(** ** The supervisor, further *)

Section MoreSupervisor.

Import Runtime.

#[local] Arguments setup_cgroups : simpl never.
#[local] Arguments run_child : simpl never.
#[local] Arguments cleanup_cgroup_path : simpl never.

Lemma main_parts argc argv :
  4 <= argc ->
  main argc argv =
  let config := main_config argv in
  call (Printf "=== MiniRun Container Runtime ===\n" []);;
  call (Printf "Starting container: %s\n" [ArgS (name config)]);;
  call (Printf "Root filesystem: %s\n" [ArgS (rootfs_path config)]);;
  call (Printf "Command: %s\n\n" [ArgS (command config)]);;
  call (Printf "Limits: %ldMB RAM, %d%% CPU\n\n"
          [ArgD (Z.quot (memory_limit config) (1024 * 1024));
           ArgD (cpu_limit config)]);;
  bind (setup_cgroups (name config) (memory_limit config) (cpu_limit config))
    (supervise config).
Proof.
  intros Hargc. unfold main. destruct (argc <? 4) eqn:E; [lia|]. reflexivity.
Qed.

(** The launch, observed further. *)
Lemma launch_observed_further {W} (os : OS W) config tail o kids :
  Launch os config tail o kids ->
  open_streams [] tail = [] /\
  frees tail = omap id (mallocs tail) /\
  (length (mallocs tail) <= 1)%nat /\
  o = Returned (match kids with [] => 1 | _ => 0 end) /\
  (length kids <= 1)%nat /\
  (forall s, In s (started tail) ->
             s = (Fn_child_function, clone_flags, config)) /\
  forallb (fun e => negb (confining e)) tail = true /\
  (forall pid tr o', In (pid, (tr, o')) kids ->
     exists w, tr = trace (run_child os config w)).
Proof.
  intros []; cbn; repeat split; try done; try lia.
  all: try (intros s [<-|[]]; done).
  intros pid' tr o' [[= <- <- <-]|[]]. eauto.
Qed.

Lemma printed_observed config a :
  open_streams [] (banner config) = [] /\ frees (banner config) = [] /\
  started (banner config) = [] /\
  forallb (fun e => negb (confining e)) (banner config) = true /\
  (forall o, open_streams o (warning a) = o) /\ frees (warning a) = [] /\
  started (warning a) = [] /\
  forallb (fun e => negb (confining e)) (warning a) = true.
Proof. unfold warning. by destruct (a =? 0). Qed.

End MoreSupervisor.

(** ** What [fclose] answers *)

(** A program that does not read what [fclose] answers ends the same way
    and leaves the same state, whatever [fclose] answers. *)
Lemma fclose_unread_run {W A} (os : OS W) g start start' who (p : Prog A) w :
  fclose_unread p ->
  outcome (run (with_fclose g os) start' who p w)
  = outcome (run os start who p w) /\
  world (run (with_fclose g os) start' who p w)
  = world (run os start who p w).
Proof.
  intros Hp. revert w.
  induction Hp as [a | X c k Hc _ IH | f k p Hk _ IH]; intros w; cbn.
  - done.
  - destruct c; try discriminate Hc; cbn;
      match goal with
      | |- context [os_call os who ?c w] =>
          destruct (os_call os who c w) as [x w1]; cbn; apply IH
      end.
  - destruct (os_call os who (Fclose f) w) as [x w1]. cbn.
    rewrite !Hk. apply IH.
Qed.

Lemma setup_cgroups_fclose_unread name mem p :
  fclose_unread (Runtime.setup_cgroups name mem p).
Proof.
  unfold Runtime.setup_cgroups, Runtime.write_cgroup_file.
  repeat first
    [ progress cbn
    | progress unfold mbind, prog_bind, mret, prog_ret, call
    | match goal with
      | |- forall _, _ => intro
      | |- fclose_unread (Ret _) => apply fclose_unread_ret
      | |- fclose_unread (Vis (Fclose _) _) =>
          eapply fclose_unread_fclose; [intros ?; reflexivity|]
      | |- fclose_unread (Vis _ _) =>
          apply fclose_unread_vis; [reflexivity|]
      | |- fclose_unread (match ?x with _ => _ end) => destruct x
      | |- fclose_unread (bind (match ?x with _ => _ end) _) => destruct x
      | |- fclose_unread (bind (bind (match ?x with _ => _ end) _) _) =>
          destruct x
      end ].
Qed.

(** ** What every run shows *)

Section Further.

Import Runtime.

#[local] Arguments run_child : simpl never.
#[local] Arguments cleanup_cgroup_path : simpl never.
#[local] Arguments String.eqb : simpl never.

(** X1: what [setup_cgroups] returns, from what it was answered.  It
    returns 1 exactly when [access] answered 0, [mkdir] answered 0 or that
    the directory exists, and for [memory.max] and for [cpu.max] [fopen]
    gave a stream and [fprintf] did not answer a negative number; otherwise
    it returns 0.  A failed write to [cgroup.subtree_control] does not
    count, and neither does what [fclose] answers: the result and the state
    at the end are the same whatever [fclose] answers, so that a write the
    kernel refuses when the stream is flushed still gives 1.  The
    confirmation is printed exactly when it returns 1, and no process is
    started. *)
Theorem setup_cgroups_result {W} (os : OS W) (w : W) name mem p :
  let r := run_fn os (setup_cgroups name mem p) w in
  outcome r = Returned (if provisioning_failed name (trace r) then 0 else 1) /\
  printed "✓ Resource limits configured:\n" (trace r)
  = negb (provisioning_failed name (trace r)) /\
  spawned r = [] /\
  (forall g,
     let r' := run_fn (with_fclose g os) (setup_cgroups name mem p) w in
     outcome r' = outcome r /\ world r' = world r).
Proof.
  intros r.
  destruct (setup_cgroups_run os (start_child os) Supervisor w name mem p)
    as (a & Hrun & Ha & Hs).
  pose proof (provisioned_further _ _ _ _ _ Hrun) as (Hp & _).
  apply provisioned_observed in Hrun as (Hres & _).
  subst r. unfold run_fn. rewrite Ha, Hres, Hp, Hs.
  repeat split; try done.
  - rewrite <- Hres, <- Ha.
    apply fclose_unread_run, setup_cgroups_fclose_unread.
  - apply fclose_unread_run, setup_cgroups_fclose_unread.
Qed.

(** X2: once the directory of the group was created or found,
    [setup_cgroups] asks for three streams, in this order: on
    [cgroup.subtree_control], on [memory.max] and on [cpu.max] of the group,
    whatever became of the writes before; without the hierarchy or the
    directory it asks for none. *)
Theorem setup_cgroups_opens {W} (os : OS W) (w : W) name mem p :
  let tr := trace (run_fn os (setup_cgroups name mem p) w) in
  fopens tr
  = if hierarchy_missing tr || mkdir_failed tr then []
    else [ "/sys/fs/cgroup/cgroup.subtree_control";
           memory_max_path name; cpu_max_path name ].
Proof.
  intros tr.
  destruct (setup_cgroups_run os (start_child os) Supervisor w name mem p)
    as (a & Hrun & _).
  by pose proof (provisioned_further _ _ _ _ _ Hrun) as (_ & Hf & _).
Qed.

(** X3: the text written to [memory.max] is the limit in bytes in decimal,
    whole: nothing else is written to that file, and it is written whenever
    the file could be opened.  For the limit [main] sets, the text is
    [536870912]. *)
Theorem memory_max_text {W} (os : OS W) (w : W) name mem p :
  let tr := trace (run_fn os (setup_cgroups name mem p) w) in
  (forall v, In v (writes_to (memory_max_path name) tr) -> v = C.fmt_d mem) /\
  (opened (memory_max_path name) tr = true ->
   writes_to (memory_max_path name) tr = [C.fmt_d mem]) /\
  (forall argv, C.fmt_d (memory_limit (main_config argv)) = "536870912").
Proof.
  intros tr.
  destruct (setup_cgroups_run os (start_child os) Supervisor w name mem p)
    as (a & Hrun & _).
  pose proof (provisioned_further _ _ _ _ _ Hrun) as (_ & _ & Hv & Ho & _).
  rewrite (snprintf_fmt_d 128) in Hv, Ho by lia.
  repeat split; try done.
Qed.

(** The trace of [main], part by part. *)
Lemma main_observed {W} (os : OS W) (w : W) argc argv :
  let r := run_main os argc argv w in
  let config := main_config argv in
  open_streams [] (trace r) = [] /\
  frees (trace r) = omap id (mallocs (trace r)) /\
  (length (mallocs (trace r)) <= 1)%nat /\
  outcome r = Returned (match spawned r with [] => 1 | _ => 0 end) /\
  (length (spawned r) <= 1)%nat /\
  (forall s, In s (started (trace r)) ->
             s = (Fn_child_function, clone_flags, config)) /\
  forallb (fun e => negb (confining e)) (trace r) = true /\
  (forall pid tr o, In (pid, (tr, o)) (spawned r) ->
     exists w', tr = trace (run_child os config w')).
Proof.
  intros r config. subst r.
  destruct (Z.lt_ge_cases argc 4) as [Hargc|Hargc].
  { destruct (main_usage os w argc argv Hargc) as (Htr & Ho & Hs).
    rewrite Htr, Ho, Hs. cbn. repeat split; try done; lia. }
  destruct (main_cases os w argc argv Hargc) as (w0 & a & tail & Hp & Htr & Hl).
  cbn zeta in *. fold config in Hp, Htr, Hl. rewrite Htr.
  set (s := run_fn os _ w0) in *.
  pose proof (provisioned_further _ _ _ _ _ Hp) as (_ & _ & _ & _ & Hso).
  destruct (printed_observed config a)
    as (Hb1 & Hb2 & Hb3 & Hb4 & Hw1 & Hw2 & Hw3 & Hw4).
  destruct (banner_observed config) as (_ & _ & _ & Hb5 & _).
  destruct (warning_observed a) as (_ & _ & _ & Hw5 & _).
  destruct (launch_observed_further os config tail _ _ Hl)
    as (Hl1 & Hl2 & Hl3 & Hl4 & Hl5 & Hl6 & Hl7 & Hl8).
  assert (Hs2 : frees (trace s) = []).
  { apply setup_cgroups_selects. intros [X c x| |]; try done; by destruct c. }
  assert (Hs3 : started (trace s) = []).
  { apply setup_cgroups_selects. intros [X c x| |]; try done; by destruct c. }
  assert (Hs5 : mallocs (trace s) = []).
  { apply setup_cgroups_selects. intros [X c x| |]; try done; by destruct c. }
  assert (Hs4 : forallb (fun e => negb (confining e)) (trace s) = true).
  { apply forallb_forall. intros e He.
    pose proof (uses_trace os (start_child os) setup_calls false _ Supervisor
                  w0 (setup_cgroups_calls (name config) (memory_limit config)
                        (cpu_limit config))) as Hu.
    rewrite forallb_forall in Hu. specialize (Hu e He).
    destruct e as [X c x| |]; try done; by destruct c. }
  rewrite !open_streams_app, Hb1, Hso, Hw1, Hl1.
  unfold frees, mallocs, started in *.
  rewrite !omap_app, Hb2, Hs2, Hw2, Hb5, Hs5, Hw5, Hb3, Hs3, Hw3.
  rewrite !forallb_app, Hb4, Hs4, Hw4, Hl7.
  cbn. repeat split; try done.
Qed.

(** X4: no stream is left open.  Every stream the supervisor opened is
    closed when [main] returns, and every stream the container process
    opened is closed when its entry point returns or the shell takes its
    place. *)
Theorem streams_closed {W} (os : OS W) (w : W) argc argv :
  let r := run_main os argc argv w in
  open_streams [] (trace r) = [] /\
  (forall pid tr o, In (pid, (tr, o)) (spawned r) -> open_streams [] tr = []).
Proof.
  intros r.
  destruct (main_observed os w argc argv) as (Ho & _ & _ & _ & _ & _ & _ & Hk).
  split; [exact Ho|].
  intros pid tr o Hin. destruct (Hk pid tr o Hin) as (w' & ->).
  by destruct (child_function_observed os w' (main_config argv))
    as (_ & _ & Hc & _).
Qed.

(** X5: the stack of the container is freed exactly when it was given:
    [main] asks for at most one block, and the pointers it passes to [free]
    are the blocks [malloc] returned, on every way out, the failure of
    [clone] included; the container process frees nothing. *)
Theorem stack_freed {W} (os : OS W) (w : W) argc argv :
  let r := run_main os argc argv w in
  frees (trace r) = omap id (mallocs (trace r)) /\
  (length (mallocs (trace r)) <= 1)%nat /\
  (forall pid tr o, In (pid, (tr, o)) (spawned r) -> frees tr = []).
Proof.
  intros r.
  destruct (main_observed os w argc argv) as (_ & Hf & Hm & _ & _ & _ & _ & Hk).
  split; [exact Hf|]. split; [exact Hm|].
  intros pid tr o Hin. destruct (Hk pid tr o Hin) as (w' & ->).
  destruct (child_function_observed os w' (main_config argv))
    as (_ & _ & _ & Hc).
  apply (omap_none_of _ (fun e => negb (managing e))); [|exact Hc].
  intros [X c x| |]; try done; by destruct c.
Qed.

(** X6: [main] returns 0 when the container process was started and 1
    when it was not (too few arguments, no stack, a refused [clone]), and
    nothing else.  It starts at most one process, in a new pid and a new
    mount name space, with SIGCHLD as its end signal and the configuration
    built from the arguments. *)
Theorem main_exit_status {W} (os : OS W) (w : W) argc argv :
  let r := run_main os argc argv w in
  outcome r = Returned (match spawned r with [] => 1 | _ => 0 end) /\
  (length (spawned r) <= 1)%nat /\
  (forall fn flags config, In (fn, flags, config) (started (trace r)) ->
     flags = Z.lor (Z.lor C.CLONE_NEWPID C.CLONE_NEWNS) C.SIGCHLD /\
     config = main_config argv).
Proof.
  intros r.
  destruct (main_observed os w argc argv) as (_ & _ & _ & Ho & Hn & Hs & _).
  split; [exact Ho|]. split; [exact Hn|].
  intros fn flags config Hin. specialize (Hs _ Hin). destruct fn. inversion Hs; subst. repeat split; reflexivity.
Qed.

(** X7: the two processes keep to their parts.  The supervisor is never
    confined and never replaced: it calls neither [chroot], [chdir] nor
    [mount], and no [execl].  The container process manages nothing: it
    calls neither [access], [mkdir], [rmdir], [malloc], [free], [waitpid]
    nor [clone]. *)
Theorem roles_separate {W} (os : OS W) (w : W) argc argv :
  let r := run_main os argc argv w in
  forallb (fun e => negb (confining e)) (trace r) = true /\
  (forall pid tr o, In (pid, (tr, o)) (spawned r) ->
     forallb (fun e => negb (managing e)) tr = true).
Proof.
  intros r.
  destruct (main_observed os w argc argv) as (_ & _ & _ & _ & _ & _ & Hc & Hk).
  split; [exact Hc|].
  intros pid tr o Hin. destruct (Hk pid tr o Hin) as (w' & ->).
  by destruct (child_function_observed os w' (main_config argv))
    as (_ & _ & _ & Hm).
Qed.

(** X8: the container process asks for its pid twice, prints the first
    answer and writes the second, in decimal and whole, to the membership
    file of the group: nothing else is written to that file, and the pid is
    written whenever the file could be opened.  It asks for no other
    stream. *)
Theorem child_joins_with_own_pid {W} (os : OS W) (w : W) config :
  let tr := trace (run_child os config w) in
  let procs := cgroup_procs_path (name config) in
  exists pid pid',
    getpids tr = [pid; pid'] /\
    In (EvCall (Printf "PID: %d\n" [ArgD pid]) tt) tr /\
    (forall v, In v (writes_to procs tr) -> v = C.fmt_d pid') /\
    (opened procs tr = true -> writes_to procs tr = [C.fmt_d pid']) /\
    fopens tr = [procs].
Proof.
  intros tr procs.
  destruct (child_function_observed os w config)
    as ((pid & pid' & Hg & Hp & Hv & Ho) & Hf & _).
  exists pid, pid'. done.
Qed.

(** X9: [write_cgroup_file] asks for one stream, on the path it was
    given.  It returns -1 when the stream was refused or [fprintf] returned
    a negative number, and 0 otherwise, a write of no byte included; what
    it sends is the value and nothing else; and the stream it was given is
    closed before it returns, after a failed write too.  The answer of
    [fclose] does not reach the result. *)
Theorem write_cgroup_file_result {W} (os : OS W) (w : W) path value :
  let r := run_fn os (write_cgroup_file path value) w in
  outcome r = Returned (if write_failed path (trace r) then -1 else 0) /\
  fopens (trace r) = [path] /\
  open_streams [] (trace r) = [] /\
  (forall v, In v (writes_to path (trace r)) -> v = value) /\
  (opened path (trace r) = true -> writes_to path (trace r) = [value]) /\
  spawned r = [].
Proof.
  intros r. subst r. unfold run_fn.
  destruct (write_cgroup_file_run os (start_child os) Supervisor w path value)
    as (a & Hw & -> & ->).
  destruct Hw as [|f n c]; unfold writes_to, opened; cbn;
    rewrite ?String.eqb_refl, ?Nat.eqb_refl; cbn;
    rewrite ?String.eqb_refl; cbn.
  - repeat split; intros; done.
  - destruct (n <? 0); repeat split; intros; try done; intuition congruence.
Qed.

End Further.

(** ** What holds of the state at the end *)

Section Invariants.

Context {W : Type} (os : OS W).
Variable start : FnPtr -> ContainerConfig -> W -> (list Event * Outcome Z) * W.
Variable ok : forall X, Sys X -> bool.
Variable I : W -> Prop.
Variable who : Proc.

Hypothesis call_keeps :
  forall X (c : Sys X) w, ok X c = true -> I w -> I (snd (os_call os who c w)).
Hypothesis clone_keeps : forall fl w, I w -> I (snd (os_clone os fl w)).
Hypothesis start_keeps : forall fn arg w, I w -> I (snd (start fn arg w)).
Hypothesis execl_keeps :
  forall path argv w, I w -> I (snd (os_execl os who path argv w)).

(** What every allowed call, [clone], the started process and [execl]
    preserve holds at the end. *)
Lemma uses_invariant_all {A} ctl (p : Prog A) w :
  uses ok ctl p -> I w -> I (world (run os start who p w)).
Proof.
  intros Hp. revert w.
  induction Hp as [a | X c k Hc _ IH | fn st fl arg k _ _ IH
                  | path argv k _ _ IH]; intros w Hw; cbn.
  - done.
  - specialize (call_keeps X c w Hc Hw).
    destruct (os_call os who c w) as [x w1]. cbn in *. by apply IH.
  - specialize (clone_keeps fl w Hw).
    destruct (os_clone os fl w) as [[pid|] w1]; cbn in *; [|by apply IH].
    specialize (start_keeps fn arg w1 clone_keeps).
    destruct (start fn arg w1) as [child w2]. cbn in *. by apply IH.
  - specialize (execl_keeps path argv w Hw).
    destruct (os_execl os who path argv w) as [[r|] w1]; cbn in *; [|done].
    by apply IH.
Qed.

(** Where [rmdir path] comes last, the state at the end is the one that
    [rmdir] left. *)
Lemma ends_with_rmdir_world {A} path (p : Prog A) w :
  ends_with_rmdir ok path p -> I w ->
  exists w', I w' /\
    world (run os start who p w) = snd (os_call os who (Rmdir path) w').
Proof.
  intros Hp. revert w.
  induction Hp as [k a Hk | X c k Hc _ IH | fn st fl arg k _ IH];
    intros w Hw; cbn.
  - exists w. split; [done|].
    destruct (os_call os who (Rmdir path) w) as [x w1]. by rewrite Hk.
  - specialize (call_keeps X c w Hc Hw).
    destruct (os_call os who c w) as [x w1]. cbn in *. by apply IH.
  - specialize (clone_keeps fl w Hw).
    destruct (os_clone os fl w) as [[pid|] w1]; cbn in *; [|by apply IH].
    specialize (start_keeps fn arg w1 clone_keeps).
    destruct (start fn arg w1) as [child w2]. cbn in *. by apply IH.
Qed.

End Invariants.

(** The container process, started, preserves what its calls, [execl] and
    its end preserve. *)
Lemma start_child_invariant {W} (os : OS W) (ok : forall X, Sys X -> bool)
    (I : W -> Prop) :
  (forall X (c : Sys X) w, ok X c = true -> I w ->
     I (snd (os_call os Container c w))) ->
  (forall fl w, I w -> I (snd (os_clone os fl w))) ->
  (forall path argv w, I w -> I (snd (os_execl os Container path argv w))) ->
  (forall code w, I w -> I (os_exit os code w)) ->
  (forall config, uses ok true (Runtime.child_function config)) ->
  forall fn arg w, I w -> I (snd (start_child os fn arg w)).
Proof.
  intros Hcall Hclone Hexecl Hexit Hu [] arg w Hw.
  unfold start_child, run_child. cbn [snd]. apply Hexit.
  by apply (uses_invariant_all os no_start ok I Container Hcall Hclone
              (fun _ _ _ H => H) Hexecl true).
Qed.

(** ** The calls of the two processes *)

Section MoreCalls.

Import Runtime.

#[local] Arguments setup_cgroup_path : simpl never.
#[local] Arguments cleanup_cgroup_path : simpl never.
#[local] Arguments String.eqb : simpl never.

Ltac walk_with lem :=
  repeat first
    [ progress cbn
    | progress unfold mbind, prog_bind, mret, prog_ret, call, clone, execl
    | match goal with
      | |- forall _, _ => intro
      | |- uses _ _ (Ret _) => apply uses_ret
      | |- uses _ _ (Vis _ _) =>
          apply uses_vis; [first [reflexivity | apply lem]|]
      | |- uses _ _ (Clone _ _ _ _ _) => apply uses_clone; [reflexivity|]
      | |- uses _ _ (Execl _ _ _) => apply uses_execl; [reflexivity|]
      | |- uses _ _ (match ?x with _ => _ end) => destruct x
      | |- uses _ _ (bind (match ?x with _ => _ end) _) => destruct x
      | |- uses _ _ (bind (bind (match ?x with _ => _ end) _) _) => destruct x
      end ].

Lemma main_uses argc argv :
  uses (main_calls (arg argv 1)) true (main argc argv).
Proof.
  unfold main, setup_cgroups, write_cgroup_file, cleanup_cgroups.
  walk_with String.eqb_refl.
Qed.

Lemma child_function_uses config :
  uses child_calls true (child_function config).
Proof. unfold child_function. walk. Qed.

Lemma supervise_uses config a :
  uses (main_calls (name config)) true (supervise config a).
Proof.
  unfold supervise, cleanup_cgroups. walk_with String.eqb_refl.
Qed.

Lemma main_ends_with_rmdir argc argv :
  4 <= argc ->
  ends_with_rmdir any_call (cleanup_cgroup_path (arg argv 1)) (main argc argv).
Proof.
  intros Hargc.
  unfold main, setup_cgroups, write_cgroup_file, cleanup_cgroups.
  destruct (argc <? 4) eqn:E; [lia|].
  repeat first
    [ progress cbn
    | progress unfold mbind, prog_bind, mret, prog_ret, call, clone, execl
    | match goal with
      | |- forall _, _ => intro
      | |- ends_with_rmdir _ _ (Vis (Rmdir _) _) =>
          eapply ends_with_rmdir_here; intros [? ?]; cbn;
          match goal with
          | |- context [if ?b then _ else _] => by destruct b
          end
      | |- ends_with_rmdir _ _ (Vis _ _) =>
          apply ends_with_rmdir_vis; [reflexivity|]
      | |- ends_with_rmdir _ _ (Clone _ _ _ _ _) =>
          apply ends_with_rmdir_clone
      | |- ends_with_rmdir _ _ (match ?x with _ => _ end) => destruct x
      | |- ends_with_rmdir _ _ (bind (match ?x with _ => _ end) _) =>
          destruct x
      | |- ends_with_rmdir _ _ (bind (bind (match ?x with _ => _ end) _) _) =>
          destruct x
      end ].
Qed.

End MoreCalls.

(** ** The host, further *)

Section MoreHost.

Import Runtime.

#[local] Arguments setup_cgroup_path : simpl never.
#[local] Arguments cleanup_cgroup_path : simpl never.

(** Nothing changes the setting of the host. *)
Lemma host_call_setting {X} who (c : Sys X) (h : Host.State) :
  Host.setting (snd (Host.call who c h)) = Host.setting h.
Proof. destruct c; cbn; repeat case_match; done. Qed.

Lemma host_start_child_setting fn arg (h : Host.State) (s : Host.Setting) :
  Host.setting h = s ->
  Host.setting (snd (start_child Host.os fn arg h)) = s.
Proof.
  apply (start_child_invariant Host.os any_call
           (fun h' => Host.setting h' = s)).
  - intros X c w _ <-. apply host_call_setting.
  - intros fl w <-. unfold Host.os, Host.do_clone. cbn. by case_match.
  - intros path argv w <-. unfold Host.os, Host.do_execl. cbn.
    by repeat case_match.
  - by intros code w <-.
  - intros config. eapply uses_weaken; [|apply child_function_calls]. done.
Qed.

(** The calls of the container process leave the directories alone. *)
Lemma host_child_call_dirs {X} who (c : Sys X) (h : Host.State) :
  child_calls X c = true ->
  Host.dirs (snd (Host.call who c h)) = Host.dirs h.
Proof.
  intros Hc. destruct c; try discriminate Hc; cbn; repeat case_match; done.
Qed.

Lemma host_clone_dirs fl (h : Host.State) :
  Host.dirs (snd (Host.do_clone fl h)) = Host.dirs h.
Proof. unfold Host.do_clone. by case_match. Qed.

Lemma host_execl_dirs who path argv (h : Host.State) :
  Host.dirs (snd (Host.do_execl who path argv h)) = Host.dirs h.
Proof. unfold Host.do_execl. by repeat case_match. Qed.

Lemma host_start_child_dirs fn arg (h : Host.State) (P : gset string -> Prop) :
  P (Host.dirs h) ->
  P (Host.dirs (snd (start_child Host.os fn arg h))).
Proof.
  apply (start_child_invariant Host.os child_calls
           (fun h' => P (Host.dirs h'))).
  - intros X c w Hc Hw. by rewrite host_child_call_dirs.
  - intros fl w Hw. cbn. by rewrite host_clone_dirs.
  - intros path argv w Hw. cbn. by rewrite host_execl_dirs.
  - by intros code w Hw.
  - apply child_function_uses.
Qed.

(** The calls of the supervisor touch the two directories it builds the
    names of, and no other. *)
Lemma host_main_call_dirs {X} name (c : Sys X) (h : Host.State) d :
  main_calls name X c = true ->
  d <> Host.clean (cleanup_cgroup_path name) ->
  (d ∈ Host.dirs h -> d ∈ Host.dirs (snd (Host.call Supervisor c h))) /\
  (d <> Host.clean (setup_cgroup_path name) ->
   d ∈ Host.dirs (snd (Host.call Supervisor c h)) -> d ∈ Host.dirs h).
Proof.
  intros Hc Hd. destruct c; try discriminate Hc; cbn in *.
  1-3, 10-11: done.
  - by destruct (Host.resolve Supervisor h path).
  - apply String.eqb_eq in Hc as ->.
    destruct (Host.resolve Supervisor h _) as [q|] eqn:Hq; [|done].
    apply host_resolve_clean in Hq as ->.
    repeat (case_bool_decide; cbn); split; try done.
    + intros ?. apply elem_of_union. by right.
    + intros Hs [->%elem_of_singleton|]%elem_of_union; done.
  - apply String.eqb_eq in Hc as ->.
    destruct (Host.resolve Supervisor h _) as [q|] eqn:Hq; [|done].
    apply host_resolve_clean in Hq as ->.
    repeat first [case_bool_decide | case_match]; cbn;
      (split; [intros Hin | intros Hs Hin]); try done.
    all: first [ apply elem_of_difference; split;
                   [done | by rewrite elem_of_singleton]
               | by apply elem_of_difference in Hin as [? _] ].
  - destruct (Host.resolve Supervisor h path); [|done].
    by destruct (Host.dir_only path); repeat (case_bool_decide; cbn).
  - destruct (Host.streams h !! f) as [[p pending]|]; [|done].
    destruct args as [|[v| |] [|? ?]]; done.
  - destruct (Host.streams h !! f) as [[p pending]|]; [|done].
    by repeat case_match.
  - destruct (Host.zombie h); [|done]. by case_match.
Qed.

(** A run of the supervisor's code removes no directory but the one
    [cleanup_cgroups] names, and creates none but the one [setup_cgroups]
    names. *)
Lemma host_main_dirs {A} name (p : Prog A) (h : Host.State) d :
  uses (main_calls name) true p ->
  d <> Host.clean (cleanup_cgroup_path name) ->
  (d ∈ Host.dirs h -> d ∈ Host.dirs (world (run_fn Host.os p h))) /\
  (d <> Host.clean (setup_cgroup_path name) ->
   d ∈ Host.dirs (world (run_fn Host.os p h)) -> d ∈ Host.dirs h).
Proof.
  intros Hu Hd. unfold run_fn. split.
  - apply (uses_invariant_all Host.os (start_child Host.os) (main_calls name)
             (fun h' => d ∈ Host.dirs h') Supervisor) with (ctl := true);
      try done.
    + intros X c w Hc. by apply (host_main_call_dirs name c w d Hc Hd).
    + intros fl w. cbn. by rewrite host_clone_dirs.
    + intros fn arg w. apply (host_start_child_dirs fn arg w (fun D => d ∈ D)).
    + intros path argv w. cbn. by rewrite host_execl_dirs.
  - intros Hs Hin. destruct (decide (d ∈ Host.dirs h)) as [|Hout]; [done|].
    exfalso. revert Hin.
    apply (uses_invariant_all Host.os (start_child Host.os) (main_calls name)
             (fun h' => d ∉ Host.dirs h') Supervisor) with (ctl := true);
      try done.
    + intros X c w Hc Hw Hin. apply Hw.
      by apply (host_main_call_dirs name c w d Hc Hd).
    + intros fl w. cbn. by rewrite host_clone_dirs.
    + intros fn arg w. apply (host_start_child_dirs fn arg w (fun D => d ∉ D)).
    + intros path argv w. cbn. by rewrite host_execl_dirs.
Qed.

End MoreHost.

(** ** The names of the group *)

Lemma string_of_list_ascii_app (l1 l2 : list ascii) :
  String.string_of_list_ascii (l1 ++ l2)
  = String.string_of_list_ascii l1 +:+ String.string_of_list_ascii l2.
Proof.
  induction l1 as [|c l1 IH]; [done|].
  change (String c (String.string_of_list_ascii (l1 ++ l2))
          = String c (String.string_of_list_ascii l1
                      +:+ String.string_of_list_ascii l2)).
  by rewrite IH.
Qed.

Lemma string_app_nil_r (s : string) : s +:+ "" = s.
Proof.
  induction s as [|c s IH]; [done|].
  change (String c (s +:+ "") = String c s). by rewrite IH.
Qed.

(** A name without a slash is one piece. *)
Lemma host_pieces_slashless acc s :
  slashless s = true ->
  Host.pieces acc s = [String.string_of_list_ascii (rev acc) +:+ s].
Proof.
  revert acc. induction s as [|c s IH]; intros acc; simpl.
  - by rewrite string_app_nil_r.
  - intros [Hc Hs]%andb_prop. apply negb_true_iff in Hc. rewrite Hc.
    rewrite (IH (c :: acc) Hs). simpl.
    rewrite string_of_list_ascii_app, string_app_assoc. reflexivity.
Qed.

Lemma slashless_substring n s :
  slashless s = true -> slashless (String.substring 0 n s) = true.
Proof.
  revert n. induction s as [|c s IH]; intros [|n]; simpl; try done.
  intros [Hc Hs]%andb_prop. by rewrite Hc, IH.
Qed.

(** The path of a group whose name has no slash leads to itself. *)
Lemma host_clean_group s :
  slashless s = true ->
  Host.clean ("/sys/fs/cgroup/minirun-" +:+ s) = "/sys/fs/cgroup/minirun-" +:+ s.
Proof.
  intros Hs. unfold Host.clean. cbv [String.append]. simpl.
  rewrite (host_pieces_slashless _ _ Hs). simpl.
  cbv [String.append]. reflexivity.
Qed.

Lemma cleanup_cgroup_path_prefix name :
  Runtime.cleanup_cgroup_path name =
  "/sys/fs/cgroup/minirun-" +:+ String.substring 0 488 name.
Proof. reflexivity. Qed.

Lemma host_clean_group_paths name :
  slashless name = true ->
  Host.clean (Runtime.setup_cgroup_path name) = Runtime.setup_cgroup_path name /\
  Host.clean (Runtime.cleanup_cgroup_path name)
  = Runtime.cleanup_cgroup_path name.
Proof.
  intros Hn. rewrite setup_cgroup_path_prefix, cleanup_cgroup_path_prefix.
  split; apply host_clean_group, slashless_substring, Hn.
Qed.

(** ** The group on the host *)

Lemma substring_length_min n s :
  String.length (String.substring 0 n s) = Nat.min n (String.length s).
Proof.
  revert n. induction s as [|c s IH]; intros [|n]; cbn; try done.
  by rewrite IH.
Qed.

(** A name longer than the buffer of [setup_cgroups] allows: the directory
    created and the directory removed differ. *)
Lemma long_name_paths name :
  (232 < String.length name)%nat ->
  Runtime.setup_cgroup_path name <> Runtime.cleanup_cgroup_path name.
Proof.
  intros Hn Heq. apply (f_equal String.length) in Heq. revert Heq.
  unfold Runtime.setup_cgroup_path, Runtime.cleanup_cgroup_path, C.snprintf.
  rewrite !substring_length_min, string_length_app.
  change (String.length "/sys/fs/cgroup/minirun-") with 23%nat. lia.
Qed.

Section HostFurther.

Import Runtime.

#[local] Arguments setup_cgroups : simpl never.
#[local] Arguments supervise : simpl never.
#[local] Arguments setup_cgroup_path : simpl never.
#[local] Arguments cleanup_cgroup_path : simpl never.

(** On the host [main] is [setup_cgroups] followed by the rest. *)
Lemma host_main_parts (h : Host.State) argc argv :
  4 <= argc ->
  let config := main_config argv in
  let s := run_fn Host.os (setup_cgroups (name config) (memory_limit config)
                             (cpu_limit config)) h in
  exists a,
    outcome s = Returned a /\
    world (run_main Host.os argc argv h)
    = world (run_fn Host.os (supervise config a) (world s)) /\
    exists tail,
      trace (run_main Host.os argc argv h)
      = (banner config ++ trace s ++ tail)%list.
Proof.
  intros Hargc config s. subst s config.
  unfold run_main, run_fn. rewrite main_parts by done.
  cbn. unfold mbind, prog_bind. rewrite run_bind.
  match goal with
  | |- context [run Host.os ?st ?who (setup_cgroups ?n ?m ?p) ?w] =>
      destruct (setup_cgroups_run Host.os st who w n m p) as (a & _ & Ha & _)
  end.
  exists a. rewrite Ha. cbn. eauto.
Qed.

(** The state [cleanup_cgroups] leaves is the state [rmdir] leaves. *)
Lemma host_cleanup_world (h : Host.State) name :
  world (run_fn Host.os (cleanup_cgroups name) h)
  = snd (Host.call Supervisor (Rmdir (cleanup_cgroup_path name)) h).
Proof.
  unfold run_fn, cleanup_cgroups. cbn -[Host.call].
  destruct (Host.call Supervisor (Rmdir (cleanup_cgroup_path name)) h)
    as [[r e] h1]. cbn. by destruct (negb (r =? 0) && negb (e =? C.ENOENT)).
Qed.

(** X10: on the host, once [main] went past the test of its arguments, the
    directory [cleanup_cgroups] names is not there when [main] returns,
    unless the kernel refuses to remove it (it holds it busy, or the name
    it is given ends in [.] or [..]): whether the directory was created by
    this run, left by an earlier one, or never there, and whatever became
    of the container.  For a name that fits the buffer of [setup_cgroups]
    this is the directory [setup_cgroups] created. *)
Theorem host_main_removes_group (h : Host.State) argc argv :
  4 <= argc ->
  Host.kept h (cleanup_cgroup_path (arg argv 1)) = false ->
  let r := run_main Host.os argc argv h in
  Host.is_dir (world r) (cleanup_cgroup_path (arg argv 1)) = false /\
  ((String.length (arg argv 1) <= 232)%nat ->
   Host.is_dir (world r) (setup_cgroup_path (arg argv 1)) = false).
Proof.
  intros Hargc Hkept r.
  assert (Hgone : Host.is_dir (world r) (cleanup_cgroup_path (arg argv 1))
                  = false).
  { subst r. unfold run_main.
    destruct (ends_with_rmdir_world Host.os (start_child Host.os) any_call
                (fun h' => Host.setting h' = Host.setting h) Supervisor)
      with (path := cleanup_cgroup_path (arg argv 1))
           (p := main argc argv) (w := h) as (h' & Hs & ->).
    - intros X c w _ <-. apply host_call_setting.
    - intros fl w <-. cbn. unfold Host.do_clone. by case_match.
    - intros fn config w. apply host_start_child_setting.
    - by apply main_ends_with_rmdir.
    - done.
    - destruct (host_cleanup h' (arg argv 1)) as (Habsent & Hgone & _).
      cbn zeta in Habsent, Hgone.
      rewrite host_cleanup_world in Habsent, Hgone.
      change (os_call Host.os Supervisor
                (Rmdir (cleanup_cgroup_path (arg argv 1))) h')
        with (Host.call Supervisor
                (Rmdir (cleanup_cgroup_path (arg argv 1))) h').
      destruct (Host.is_dir h' (cleanup_cgroup_path (arg argv 1))) eqn:Hin.
      + apply Hgone; [done|]. unfold Host.kept in *. by rewrite Hs.
      + by rewrite (Habsent eq_refl). }
  split; [exact Hgone|].
  intros Hn. by destruct (group_paths_agree _ Hn) as (_ & <- & _).
Qed.

(** The group of an invocation on the host is gone at the end. *)
Lemma host_main_removes_group_witness :
  4 <= 4 /\
  Host.kept Host.stale (cleanup_cgroup_path (arg t1 1)) = false /\
  Host.is_dir Host.stale "/sys/fs/cgroup/minirun-t1" = true /\
  Host.is_dir (world (run_main Host.os 4 t1 Host.stale))
    (cleanup_cgroup_path (arg t1 1)) = false.
Proof.
  assert (Hk : Host.kept Host.stale (cleanup_cgroup_path (arg t1 1)) = false)
    by (vm_compute; reflexivity).
  split; [lia|]. split; [exact Hk|]. split; [vm_compute; reflexivity|].
  destruct (host_main_removes_group Host.stale 4 t1) as [H _];
    [lia | exact Hk | exact H].
Defined.

(** X11: on the host, [main] creates and removes no directory but those the
    two names of the group lead to: every other directory is there at the
    end exactly when it was there at the start, whatever the container
    process did before it was replaced or ended. *)
Theorem host_main_other_dirs (h : Host.State) argc argv d :
  d <> Host.clean (setup_cgroup_path (arg argv 1)) ->
  d <> Host.clean (cleanup_cgroup_path (arg argv 1)) ->
  d ∈ Host.dirs (world (run_main Host.os argc argv h)) <-> d ∈ Host.dirs h.
Proof.
  intros Hs Hc.
  destruct (host_main_dirs (arg argv 1) (main argc argv) h d
              (main_uses argc argv) Hc) as [Hkeep Hnew].
  split; [by apply Hnew | apply Hkeep].
Qed.

(** The root file system of the container is still there. *)
Lemma host_main_other_dirs_witness :
  "/srv/rootfs" <> Host.clean (setup_cgroup_path (arg t1 1)) /\
  "/srv/rootfs" <> Host.clean (cleanup_cgroup_path (arg t1 1)) /\
  ("/srv/rootfs" ∈ Host.dirs (world (run_main Host.os 4 t1 Host.linux))).
Proof.
  assert (H1 : "/srv/rootfs" <> Host.clean (setup_cgroup_path (arg t1 1)))
    by (vm_compute; discriminate).
  assert (H2 : "/srv/rootfs" <> Host.clean (cleanup_cgroup_path (arg t1 1)))
    by (vm_compute; discriminate).
  split; [exact H1|]. split; [exact H2|].
  apply (host_main_other_dirs Host.linux 4 t1 "/srv/rootfs" H1 H2).
  apply (bool_decide_unpack _). vm_compute. exact I.
Defined.

(** X12: a name of more than 232 bytes does not fit the buffer in which
    [setup_cgroups] builds the directory of the group, and [cleanup_cgroups]
    builds another name in its larger buffer: the name of the directory
    created is not the name of the directory removed.  On the host, where
    the two names lead to two directories, the directory [setup_cgroups]
    created or found is still there when [main] returns; and they do lead
    to two directories, themselves, when the name of the container has no
    slash. *)
Theorem long_name_leaves_group (h : Host.State) argc argv :
  4 <= argc ->
  (232 < String.length (arg argv 1))%nat ->
  let r := run_main Host.os argc argv h in
  let made := setup_cgroup_path (arg argv 1) in
  let removed := cleanup_cgroup_path (arg argv 1) in
  made <> removed /\
  (Host.clean made <> Host.clean removed ->
   Host.clean made ∉ dom (Host.files h) ->
   hierarchy_missing (trace r) = false -> mkdir_failed (trace r) = false ->
   Host.clean made ∈ Host.dirs (world r)) /\
  (slashless (arg argv 1) = true ->
   Host.clean made = made /\ Host.clean removed = removed).
Proof.
  intros Hargc Hn r made removed.
  pose proof (long_name_paths _ Hn) as Hne.
  split; [exact Hne|]. split; [|apply host_clean_group_paths].
  subst r made removed. intros Hcl Hfile.
  destruct (host_main_parts h argc argv Hargc) as (a & Ha & -> & tail & ->).
  cbn zeta. unfold hierarchy_missing, mkdir_failed.
  rewrite !existsb_app. intros Hh Hm.
  apply orb_false_iff in Hh as [_ [Hh _]%orb_false_iff].
  apply orb_false_iff in Hm as [_ [Hm _]%orb_false_iff].
  destruct (host_main_dirs (name (main_config argv))
              (supervise (main_config argv) a)
              (world (run_fn Host.os
                        (setup_cgroups (name (main_config argv))
                           (memory_limit (main_config argv))
                           (cpu_limit (main_config argv))) h))
              (Host.clean (setup_cgroup_path (arg argv 1)))
              (supervise_uses _ a) Hcl) as [Hkeep _].
  apply Hkeep. by apply host_group_remains.
Qed.

(** A name of 240 bytes: the group is left behind. *)
Lemma long_name_leaves_group_witness :
  let argv := ["minirun"; long_name; "/srv/rootfs"; "/bin/true"] in
  4 <= 4 /\ (232 < String.length (arg argv 1))%nat /\
  (setup_cgroup_path long_name
     ∈ Host.dirs (world (run_main Host.os 4 argv Host.linux))).
Proof.
  intros argv.
  assert (Hn : (232 < String.length (arg argv 1))%nat)
    by (vm_compute; lia).
  split; [lia|]. split; [exact Hn|].
  destruct (long_name_leaves_group Host.linux 4 argv) as (_ & H & Hs);
    [lia | exact Hn |].
  destruct Hs as [Hmade Hremoved]; [vm_compute; reflexivity|].
  cbn zeta in H. change (arg argv 1) with long_name in *.
  rewrite Hmade, Hremoved in H. apply H.
  - apply long_name_paths. exact Hn.
  - apply (bool_decide_unpack _). vm_compute. exact I.
  - vm_compute. reflexivity.
  - vm_compute. reflexivity.
Defined.

End HostFurther.

(** ** The limit files on the host *)

(** A file of a directory: the pieces of its path, where the path leads,
    and the directory it lies in. *)
Lemma host_pieces_app acc s t :
  Host.pieces acc (s +:+ String "/" t) = (Host.pieces acc s ++ Host.pieces [] t)%list.
Proof.
  revert acc. induction s as [|c s IH]; intros acc.
  - cbv [String.append]. simpl. reflexivity.
  - change (String c s +:+ String "/" t) with (String c (s +:+ String "/" t)).
    simpl. destruct (Ascii.eqb c "/"); rewrite IH; reflexivity.
Qed.

Lemma host_walk_app there stack l1 l2 :
  Host.walk there stack (l1 ++ l2)
  = match Host.walk there stack l1 with
    | Some reached => Host.walk there reached l2
    | None => None
    end.
Proof.
  revert stack. induction l1 as [|n l1 IH]; intros stack; simpl; [done|].
  destruct (String.eqb n ""), (String.eqb n "."), (String.eqb n ".."),
    (there stack); try done; apply IH.
Qed.

Lemma host_walk_total stack names :
  exists reached, Host.walk (fun _ => true) stack names = Some reached.
Proof.
  revert stack. induction names as [|n rest IH]; intros stack; simpl; [eauto|].
  destruct (String.eqb n ""), (String.eqb n "."), (String.eqb n "..");
    apply IH.
Qed.

Lemma host_join_below stack :
  Host.join stack
  = if String.eqb (Host.below stack) "" then "/" else Host.below stack.
Proof.
  destruct stack as [|n stack]; [done|]. unfold Host.join.
  simpl. destruct (Host.below stack) as [|c s]; reflexivity.
Qed.

Lemma slashless_entry n : Host.entry n = true -> slashless n = true.
Proof.
  unfold Host.entry. intros [_ Hn]%andb_prop. revert Hn.
  induction n as [|c n IH]; simpl; [done|].
  intros [-> Hn]%andb_prop. by apply IH.
Qed.

(** Where the path of an entry [n] of the directory [s] leads. *)
Lemma host_clean_entry s n :
  Host.entry n = true ->
  Host.clean (s +:+ String "/" n)
  = Host.below (default [] (Host.walk (fun _ => true) []
                              (Host.pieces [] s))) +:+ String "/" n.
Proof.
  intros Hn. unfold Host.clean.
  rewrite host_pieces_app, host_walk_app.
  destruct (host_walk_total [] (Host.pieces [] s)) as [reached ->].
  rewrite (host_pieces_slashless [] n (slashless_entry n Hn)).
  unfold Host.entry in Hn.
  apply andb_prop in Hn as [[[H1 H2]%andb_prop H3]%andb_prop _].
  apply negb_true_iff in H1, H2, H3.
  change (String.string_of_list_ascii (rev []) +:+ n) with n.
  simpl. rewrite H1, H2, H3. reflexivity.
Qed.

Lemma host_clean_dir s :
  Host.clean s
  = let b := Host.below (default [] (Host.walk (fun _ => true) []
                                       (Host.pieces [] s))) in
    if String.eqb b "" then "/" else b.
Proof. unfold Host.clean. apply host_join_below. Qed.

(** The directory an entry lies in. *)
Lemma list_ascii_of_string_app s t :
  String.list_ascii_of_string (s +:+ t)
  = (String.list_ascii_of_string s ++ String.list_ascii_of_string t)%list.
Proof.
  induction s as [|c s IH]; [done|].
  change (String c s +:+ t) with (String c (s +:+ t)). simpl. by rewrite IH.
Qed.

Lemma host_cut_last l1 l2 :
  forallb (fun c => negb (Ascii.eqb c "/")) l1 = true ->
  Host.cut_last (l1 ++ "/"%char :: l2) = l2.
Proof.
  induction l1 as [|c l1 IH]; simpl; [done|].
  intros [Hc Hl]%andb_prop. apply negb_true_iff in Hc. rewrite Hc. auto.
Qed.

Lemma host_dirname_entry b n :
  Host.entry n = true ->
  Host.dirname (b +:+ String "/" n) = if String.eqb b "" then "/" else b.
Proof.
  intros Hn. unfold Host.dirname.
  rewrite list_ascii_of_string_app. simpl.
  rewrite rev_app_distr. simpl. rewrite <- app_assoc. simpl.
  rewrite host_cut_last, rev_involutive.
  - destruct b as [|c b]; [done|]. simpl.
    by rewrite String.string_of_list_ascii_of_string.
  - unfold Host.entry in Hn. apply andb_prop in Hn as [_ Hn].
    rewrite forallb_forall in *. intros c Hc. apply Hn.
    by apply in_rev.
Qed.

(** The directory a file of the group lies in is the directory of the
    group. *)
Lemma host_dirname_clean s n :
  Host.entry n = true ->
  Host.dirname (Host.clean (s +:+ String "/" n)) = Host.clean s.
Proof.
  intros Hn. rewrite host_clean_entry, host_dirname_entry, host_clean_dir;
    done.
Qed.

(** Two entries of one directory. *)
Lemma host_clean_entries s n n' :
  Host.entry n = true -> Host.entry n' = true -> n <> n' ->
  Host.clean (s +:+ String "/" n) <> Host.clean (s +:+ String "/" n').
Proof.
  intros Hn Hn' Hne. rewrite !host_clean_entry by done.
  intros H%string_app_inv_head. by injection H.
Qed.

(** The stream the host hands out is not one that is open. *)
Lemma host_fresh (s : gmap nat (string * string)) : s !! Host.fresh s = None.
Proof.
  apply not_elem_of_dom. intros Hin.
  apply elem_of_dom in Hin as [p Hp].
  apply elem_of_map_to_list in Hp.
  assert (Hle : forall l : list (nat * (string * string)),
            In (Host.fresh s, p) l ->
            (Host.fresh s <= fold_right Nat.max 0%nat (map fst l))%nat).
  { induction l as [|[k v] l IH]; cbn; [done|].
    intros [[= -> ->]|Hl]; [lia|]. specialize (IH Hl). lia. }
  apply list_elem_of_In, Hle in Hp. unfold Host.fresh in Hp at 1. lia.
Qed.

Section HostWrites.

Import Runtime.

(** [write_cgroup_file] on the host: without a stream it returns -1 and
    changes nothing; with one it returns 0, and the file holds the value if
    the kernel took it and nothing if it did not. *)
Lemma host_written (h : Host.State) path value :
  let r := run Host.os (start_child Host.os) Supervisor
             (write_cgroup_file path value) h in
  let p := Host.clean path in
  (Host.writable Supervisor h path = false /\
   outcome r = Returned (-1) /\ world r = h) \/
  (Host.writable Supervisor h path = true /\
   outcome r = Returned 0 /\
   Host.files (world r)
   = <[p := if Host.taken h p value then value else ""]> (Host.files h) /\
   Host.streams (world r) = Host.streams h /\
   Host.dirs (world r) = Host.dirs h /\
   Host.setting (world r) = Host.setting h /\
   (Host.dirname p ∈ Host.dirs h)).
Proof.
  intros r p. subst r p. unfold write_cgroup_file, Host.writable, Host.taken.
  cbn.
  destruct (Host.resolve Supervisor h path) as [p|] eqn:Hp; [|by left].
  apply host_resolve_clean in Hp as <-.
  destruct (negb (Host.dir_only path) && negb (bool_decide (p ∈ Host.dirs h))
            && bool_decide (Host.dirname p ∈ Host.dirs h)
            && negb (bool_decide (p ∈ Host.readonly (Host.setting h))))
    eqn:Hw; cbn; [|by left].
  right. split; [done|].
  assert (Hd : Host.dirname p ∈ Host.dirs h).
  { apply andb_prop in Hw as [[_ Hd]%andb_prop _].
    by apply bool_decide_eq_true in Hd. }
  rewrite !lookup_insert_eq. cbn.
  rewrite lookup_insert_eq. cbn.
  change ("" +:+ value) with value.
  destruct (Z.of_nat (String.length value) <? 0) eqn:E;
    [apply Z.ltb_lt in E; lia|].
  destruct (String.eqb value "") eqn:Ev; cbn.
  { apply String.eqb_eq in Ev as ->. cbn. repeat split; try done.
    rewrite delete_insert_eq.
    apply delete_insert_id, host_fresh. }
  destruct (bool_decide ((p, value) ∈ Host.refused (Host.setting h))); cbn.
  - repeat split; try done.
    rewrite delete_insert_eq.
    apply delete_insert_id, host_fresh.
  - rewrite lookup_insert_eq. cbn. change ("" +:+ value) with value.
    repeat split; try done.
    + apply insert_insert_eq.
    + rewrite delete_insert_eq.
      apply delete_insert_id, host_fresh.
Qed.

#[local] Arguments write_cgroup_file : simpl never.
#[local] Arguments setup_cgroup_path : simpl never.
#[local] Arguments memory_max_path : simpl never.
#[local] Arguments cpu_max_path : simpl never.
#[local] Arguments cpu_max_value : simpl never.
#[local] Arguments C.snprintf : simpl never.
#[local] Arguments C.fmt_d : simpl never.

Ltac written :=
  rewrite run_bind;
  match goal with
  | |- context [run Host.os ?st Supervisor (write_cgroup_file ?pa ?v) ?w] =>
      let Ho := fresh "Ho" in let Hw := fresh "Hw" in
      let Hf := fresh "Hf" in let Hd := fresh "Hd" in
      let Hs := fresh "Hs" in let Hp := fresh "Hp" in
      let h' := fresh "h" in
      destruct (host_written w pa v)
        as [(_ & Ho & Hw) | (_ & Ho & Hf & _ & Hd & Hs & Hp)];
      rewrite Ho; cbn [seq_run outcome world];
      [ rewrite Hw; clear Ho Hw
      | revert Hf Hd Hs Hp;
        generalize (world (run Host.os st Supervisor
                             (write_cgroup_file pa v) w));
        intros h' Hf Hd Hs Hp; clear Ho ]
  end.

(** The files of the group lie in its directory, and are two. *)
Lemma group_files name :
  Host.dirname (Host.clean (memory_max_path name))
  = Host.clean (setup_cgroup_path name) /\
  Host.clean (memory_max_path name) <> Host.clean (cpu_max_path name).
Proof.
  rewrite memory_max_path_eq, cpu_max_path_eq.
  change (?s +:+ "/memory.max") with (s +:+ String "/" "memory.max").
  change (?s +:+ "/cpu.max") with (s +:+ String "/" "cpu.max").
  split; [by apply host_dirname_clean | by apply host_clean_entries].
Qed.

(** The limits on the host after [configure_limits] returned 1. *)
Lemma host_configure_limits (h : Host.State) name mem p :
  let r := run Host.os (start_child Host.os) Supervisor
             (configure_limits name mem p) h in
  let memory := Host.clean (memory_max_path name) in
  let cpu := Host.clean (cpu_max_path name) in
  outcome r = Returned 1 ->
  Host.dirs (world r) = Host.dirs h /\
  (Host.clean (setup_cgroup_path name) ∈ Host.dirs h) /\
  Host.files (world r) !! memory
  = Some (if Host.taken h memory (C.fmt_d mem) then C.fmt_d mem else "") /\
  Host.files (world r) !! cpu
  = Some (if Host.taken h cpu (cpu_max_value p)
          then cpu_max_value p else "").
Proof.
  intros r memory cpu. subst r memory cpu.
  destruct (group_files name) as [Hdir Hne].
  unfold configure_limits, mbind, prog_bind.
  rewrite (snprintf_fmt_d 128) by lia.
  written; written; cbn; try done; written; cbn; try done.
  all: intros _; split; [congruence|].
  all: split; [rewrite <- Hdir;
              first [done | by rewrite <- Hd | by rewrite <- Hd0]|].
  all: unfold Host.taken in *.
  all: repeat match goal with
         | H : Host.setting _ = _ |- _ => rewrite H in *; clear H
         end.
  all: repeat match goal with
         | H : Host.files _ = _ |- _ => rewrite H; clear H
         end.
  all: rewrite lookup_insert_ne by done.
  all: by rewrite !lookup_insert_eq.
Qed.

(** X13: on the host, [write_cgroup_file] returns -1 and changes nothing
    when no stream can be had on the path: the path leads nowhere or names
    a directory, the directory it lies in is not there, or the file may not
    be written.  Otherwise it returns 0, whether the kernel took the value
    when the stream was closed or refused it: the file holds the value and
    nothing else (the stream is opened for writing, not for appending) if
    it was taken, and nothing if it was refused.  Either way the streams
    that are open and the directories are those that were. *)
Theorem host_write_cgroup_file (h : Host.State) path value :
  let r := run_fn Host.os (write_cgroup_file path value) h in
  let p := Host.clean path in
  (Host.writable Supervisor h path = false ->
   outcome r = Returned (-1) /\ world r = h) /\
  (Host.writable Supervisor h path = true ->
   outcome r = Returned 0 /\
   Host.files (world r)
   = <[p := if Host.taken h p value then value else ""]> (Host.files h)) /\
  Host.streams (world r) = Host.streams h /\
  Host.dirs (world r) = Host.dirs h.
Proof.
  intros r p. subst r p. unfold run_fn.
  destruct (host_written h path value)
    as [(Hw & Ho & Hh) | (Hw & Ho & Hf & Hs & Hd & _)].
  - rewrite Ho, Hh, Hw. repeat split; try done.
  - rewrite Ho, Hf, Hs, Hd, Hw. repeat split; try done.
Qed.

(** A limit file of a group that is there; a path that names a directory;
    and a text the kernel refuses. *)
Lemma host_write_cgroup_file_witness :
  let path := "/sys/fs/cgroup/minirun-t1/cpu.max" in
  Host.writable Supervisor Host.stale path = true /\
  Host.files (world (run_fn Host.os (write_cgroup_file path "50000 100000")
                       Host.stale)) !! path = Some "50000 100000" /\
  Host.writable Supervisor Host.linux "/srv/rootfs/proc" = false /\
  outcome (run_fn Host.os (write_cgroup_file "/srv/rootfs/proc" "x")
             Host.linux) = Returned (-1) /\
  outcome (run_fn Host.os (write_cgroup_file path "0 100000")
             (Host.with_setting (Host.setting Host.strict) Host.stale))
  = Returned 0.
Proof.
  intros path.
  assert (H : Host.writable Supervisor Host.stale path = true)
    by (vm_compute; reflexivity).
  assert (H' : Host.writable Supervisor Host.linux "/srv/rootfs/proc" = false)
    by (vm_compute; reflexivity).
  assert (H'' : Host.writable Supervisor
                  (Host.with_setting (Host.setting Host.strict) Host.stale)
                  path = true)
    by (vm_compute; reflexivity).
  split; [exact H|].
  destruct (host_write_cgroup_file Host.stale path "50000 100000")
    as (_ & Hok & _).
  destruct (host_write_cgroup_file Host.linux "/srv/rootfs/proc" "x")
    as (Hno & _).
  destruct (host_write_cgroup_file
              (Host.with_setting (Host.setting Host.strict) Host.stale)
              path "0 100000") as (_ & Hre & _).
  destruct (Hok H) as [_ Hf]. destruct (Hno H') as [Ho _].
  destruct (Hre H'') as [Ho' _].
  split; [|split; [exact H'|split; [exact Ho|exact Ho']]].
  rewrite Hf. vm_compute. reflexivity.
Defined.

(** X14: on the host, when [setup_cgroups] returns 1 the directory of the
    group is there and the two limit files are in it, and each holds what
    the kernel took: the limit in bytes, and the quota and the period, or
    nothing if the kernel refused the text when the stream was closed.
    The 1 says that the limits were sent, not that they are in place. *)
Theorem host_limits_sent (h : Host.State) name mem p :
  let r := run_fn Host.os (setup_cgroups name mem p) h in
  let memory := Host.clean (memory_max_path name) in
  let cpu := Host.clean (cpu_max_path name) in
  outcome r = Returned 1 ->
  (Host.clean (setup_cgroup_path name) ∈ Host.dirs (world r)) /\
  Host.files (world r) !! memory
  = Some (if Host.taken h memory (C.fmt_d mem) then C.fmt_d mem else "") /\
  Host.files (world r) !! cpu
  = Some (if Host.taken h cpu (cpu_max_value p) then cpu_max_value p else "").
Proof.
  intros r memory cpu. subst r memory cpu.
  unfold run_fn. rewrite setup_cgroups_parts. cbn.
  destruct (Host.resolve Supervisor h _) as [q|]; cbn; [|done].
  destruct (negb _); [done|].
  cbn.
  destruct (Host.resolve Supervisor h (setup_cgroup_path name)) as [q'|];
    cbn; [|done].
  repeat (case_bool_decide; cbn); try done.
  all: intros Hr;
    destruct (host_configure_limits _ name mem p Hr) as (Hd & Hin & Hm & Hc).
  all: rewrite Hd. all: split; [exact Hin | by split].
Qed.

(** On the host with control groups, the limits of [main] are in place;
    with a kernel that takes no quota of 0, the file of the quota is
    empty. *)
Lemma host_limits_sent_witness :
  let r := run_fn Host.os (setup_cgroups "t1" (512 * 1024 * 1024) 50)
             Host.linux in
  let r' := run_fn Host.os (setup_cgroups "t1" 1024 0) Host.strict in
  outcome r = Returned 1 /\
  Host.files (world r) !! "/sys/fs/cgroup/minirun-t1/memory.max"
  = Some "536870912" /\
  Host.files (world r) !! "/sys/fs/cgroup/minirun-t1/cpu.max"
  = Some "50000 100000" /\
  outcome r' = Returned 1 /\
  Host.files (world r') !! "/sys/fs/cgroup/minirun-t1/cpu.max" = Some "".
Proof.
  intros r r'.
  assert (Hr : outcome r = Returned 1) by (vm_compute; reflexivity).
  assert (Hr' : outcome r' = Returned 1) by (vm_compute; reflexivity).
  destruct (host_limits_sent Host.linux "t1" (512 * 1024 * 1024) 50 Hr)
    as (_ & Hm & Hc).
  destruct (host_limits_sent Host.strict "t1" 1024 0 Hr') as (_ & _ & Hc').
  split; [exact Hr|]. split; [|split; [|split; [exact Hr'|]]].
  - etrans; [exact Hm|]. vm_compute. reflexivity.
  - etrans; [exact Hc|]. vm_compute. reflexivity.
  - etrans; [exact Hc'|]. vm_compute. reflexivity.
Defined.

End HostWrites.
